(** * Receipt generator: field store, preview sizing and image export

    A shallow embedding of [src/App.tsx] and [src/types.ts].

    - The React state of [App] and the part of the browser that
      [handleDownload] touches (children of [document.body], alerts, the
      console, anchor downloads) are one record, threaded explicitly.
    - [handleDownload] is an async function with two [await]s; it is cut
      at them into three synchronous segments, and the page is a machine
      whose events run one segment each.
    - A JavaScript number is a rational or one of the three special values;
      a quotient is rounded to the nearest binary64 number. [Binary64]
      replays the same expressions on primitive floats. *)

From Stdlib Require Import ZArith QArith Qround Qabs Lia Uint63 PrimFloat SpecFloat FloatOps.
From stdpp Require Import base option list strings gmap fin_maps pretty.

Local Open Scope Z_scope.

(** ** The fragment of JavaScript and of the Web platform that App.tsx uses *)

Module JS.

(** A value of [A], or one of the IEEE special values. *)
Inductive ext (A : Type) : Type :=
| Fin (a : A)
| PosInf
| NegInf
| NaN.
Arguments Fin {A} a.
Arguments PosInf {A}.
Arguments NegInf {A}.
Arguments NaN {A}.

(** Numbers: a finite value is a rational kept in lowest terms. Zero
    carries no sign (every operand in App.tsx is non-negative). *)
Definition number : Type := ext Q.

Definition of_Z (z : Z) : number := Fin (inject_Z z).

Definition is_zero (q : Q) : bool := Qeq_bool q 0.
Definition is_neg (q : Q) : bool := Qnum q <? 0.

(** [2 ^ e], for any integer [e]. *)
Definition pow2 (e : Z) : Q := Qpower 2 e.

(** The exponent of a positive rational: [2 ^ ilog2 a <= a < 2 ^ (ilog2 a + 1)]. *)
Definition ilog2 (a : Q) : Z :=
  let e0 := Z.log2 (Qnum a) - Z.log2 (Z.pos (Qden a)) in
  if Qle_bool (pow2 e0) a then e0 else e0 - 1.

(** The integer nearest to a non-negative rational, a tie going to the even
    one. *)
Definition rne (x : Q) : Z :=
  let f := Qfloor x in
  match Qcompare (x - inject_Z f) (1 # 2) with
  | Lt => f
  | Gt => f + 1
  | Eq => if Z.even f then f else f + 1
  end.

(** The binary64 number nearest to a rational (round to nearest, ties to
    even): 53 significant bits, the least exponent -1074 and an infinity
    from [2 ^ 1024] on. *)
Definition round64 (q : Q) : number :=
  if is_zero q then Fin 0%Q
  else
    let a := Qabs q in
    let qe := Z.max (ilog2 a - 52) (-1074) in
    let v := (inject_Z (rne (a / pow2 qe)) * pow2 qe)%Q in
    if Qle_bool (pow2 1024) v then (if is_neg q then NegInf else PosInf)
    else Fin (Qred (if is_neg q then - v else v)).

(** [x / y]: the exact quotient, rounded. *)
Definition div (x y : number) : number :=
  match x, y with
  | NaN, _ | _, NaN => NaN
  | Fin a, Fin b =>
      if is_zero b then
        if is_zero a then NaN else if is_neg a then NegInf else PosInf
      else round64 (Qred (a / b))
  | Fin _, (PosInf | NegInf) => Fin 0%Q
  | PosInf, Fin b => if is_neg b then NegInf else PosInf
  | NegInf, Fin b => if is_neg b then PosInf else NegInf
  | (PosInf | NegInf), (PosInf | NegInf) => NaN
  end.

(** [x * y]. The one product of App.tsx multiplies an offset height (a
    32-bit integer) by [scale]; it is kept exact. *)
Definition mul (x y : number) : number :=
  match x, y with
  | NaN, _ | _, NaN => NaN
  | Fin a, Fin b => Fin (Qred (a * b))
  | Fin a, PosInf | PosInf, Fin a =>
      if is_zero a then NaN else if is_neg a then NegInf else PosInf
  | Fin a, NegInf | NegInf, Fin a =>
      if is_zero a then NaN else if is_neg a then PosInf else NegInf
  | PosInf, PosInf | NegInf, NegInf => PosInf
  | PosInf, NegInf | NegInf, PosInf => NegInf
  end.

(** ToBoolean on a number: [0] and [NaN] are falsy. *)
Definition truthy (x : number) : bool :=
  match x with
  | Fin a => negb (is_zero a)
  | PosInf | NegInf => true
  | NaN => false
  end.

(** [Math.round]: the nearest integer, a tie going up. *)
Definition Math_round (x : number) : ext Z :=
  match x with
  | Fin a => Fin (Qfloor (a + (1 # 2)))
  | PosInf => PosInf
  | NegInf => NegInf
  | NaN => NaN
  end.

(** Number-to-string of an integral number, as a template literal
    interpolates it (decimal digits; valid below 10^21 in magnitude). *)
Definition toString (x : ext Z) : string :=
  match x with
  | Fin z => pretty z
  | PosInf => "Infinity"
  | NegInf => "-Infinity"
  | NaN => "NaN"
  end.

(** The integer part of a finite number: its fraction is dropped,
    towards zero. *)
Definition IntegerPart (a : Q) : Z :=
  if is_neg a then Qceiling a else Qfloor a.

(** Web IDL conversion of a number to [unsigned long]: the special values
    become 0, a finite value is cut to its integer part and wraps modulo
    2^32. *)
Definition ToUint32 (x : number) : Z :=
  match x with
  | Fin a => IntegerPart a mod 2 ^ 32
  | PosInf | NegInf | NaN => 0
  end.

End JS.

(** A canvas: its bitmap dimensions, both [unsigned long]. *)
Record Canvas : Type := mkCanvas { canvas_width : Z; canvas_height : Z }.

(** [document.createElement('canvas')] *)
Definition createCanvas : Canvas := {| canvas_width := 300; canvas_height := 150 |}.

(** Reflection of an [unsigned long] into a dimension attribute: a value
    above 2^31 - 1 is replaced by the attribute's default. *)
Definition reflect_dimension (default v : Z) : Z :=
  if v <=? 2147483647 then v else default.

(** [canvas.width = x] and [canvas.height = x] for a number [x]. *)
Definition set_canvas_width (x : JS.number) (c : Canvas) : Canvas :=
  {| canvas_width := reflect_dimension 300 (JS.ToUint32 x);
     canvas_height := canvas_height c |}.
Definition set_canvas_height (x : JS.number) (c : Canvas) : Canvas :=
  {| canvas_width := canvas_width c;
     canvas_height := reflect_dimension 150 (JS.ToUint32 x) |}.

(** DOM nodes: elements with attributes, inline style and children, and
    text. The induction principle that reaches the children is
    [node_deep_ind] below. *)
#[local] Unset Elimination Schemes.
Inductive node : Type :=
| Element (tag : string) (attrs style : gmap string string) (children : list node)
| Text (data : string).
#[local] Set Elimination Schemes.

(** Induction on a node with the hypothesis for every child. *)
Fixpoint node_deep_ind (P : node -> Prop)
    (HElement : forall t a s c, Forall P c -> P (Element t a s c))
    (HText : forall d, P (Text d)) (n : node) : P n :=
  match n with
  | Element t a s c =>
      HElement t a s c
        ((fix children (l : list node) : Forall P l :=
            match l with
            | [] => @List.Forall_nil node P
            | x :: l' =>
                @List.Forall_cons node P x l' (node_deep_ind P HElement HText x) (children l')
            end) c)
  | Text d => HText d
  end.

(** [n.cloneNode(deep)] *)
Fixpoint cloneNode (deep : bool) (n : node) : node :=
  match n with
  | Element t a s c => Element t a s (if deep then map (cloneNode deep) c else [])
  | Text d => Text d
  end.

(** [n.style[prop] = value]; only elements carry a style. *)
Definition setStyle (prop value : string) (n : node) : node :=
  match n with
  | Element t a s c => Element t a (<[prop := value]> s) c
  | Text d => Text d
  end.

(** ** src/types.ts *)

(** The nine keys of [interface ReceiptData]. *)
Definition ReceiptField_keys : list string :=
  [ "transactionId"; "dateTime"; "amount"; "fromAccount"; "beneficiaryName";
    "beneficiaryAccount"; "purpose"; "comments"; "channel" ].

(** At run time a [ReceiptData] is a plain object: a finite map from
    property names to strings. *)
Abbreviation ReceiptData := (gmap string string).

(** ** src/App.tsx: state *)

(** [useState<ReceiptData>({...})] *)
Definition initialReceiptData : ReceiptData :=
  list_to_map
    [ ("transactionId", "16325459761");
      ("dateTime", "10/25/2025 9:09:24 PM");
      ("amount", "9,000");
      ("fromAccount", "ST MEDIA (PRIV");
      ("beneficiaryName", "ST MEDIA (PRIV");
      ("beneficiaryAccount", "*4003");
      ("purpose", "Others");
      ("comments", "Miscellaneous");
      ("channel", "via HBL PAY") ].

(** The second argument of [html2canvas]. *)
Record Html2CanvasOptions : Type := mkOptions {
  opt_scale : Z;
  opt_backgroundColor : string;
  opt_useCORS : bool
}.

(** How the promise of [html2canvas] settles. *)
Inductive raster_result : Type :=
| Resolved (sourceCanvas : Canvas)
| Rejected (reason : string).

(** What the browser decides: layout, whether a 2D context is handed out,
    and whether the canvas can be serialised ([None]: [toDataURL] throws). *)
Record Platform : Type := mkPlatform {
  offsetHeight : node -> Z;
  getContext2d : Canvas -> bool;
  toDataURL : Canvas -> option string
}.

(** A click on an anchor with a [download] attribute; [download_image] is
    the canvas that [download_href] serialises. *)
Record Download : Type := mkDownload {
  download_name : string;
  download_href : string;
  download_image : Canvas
}.

(** The state of the component and of the page around it. A child of
    [document.body] is a node with its identity. *)
Record Page : Type := mkPage {
  receiptData : ReceiptData;
  isDownloading : bool;
  previewHeight : Z;
  previewRef : option node;
  body : list (nat * node);
  next_id : nat;
  raster_calls : list (node * Html2CanvasOptions);
  console_errors : list string;
  alerts : list string;
  downloads : list Download;
  uncaught : list string
}.

Definition setReceiptData (f : ReceiptData -> ReceiptData) (p : Page) : Page :=
  mkPage (f (receiptData p)) (isDownloading p) (previewHeight p) (previewRef p)
    (body p) (next_id p) (raster_calls p) (console_errors p) (alerts p)
    (downloads p) (uncaught p).

Definition setIsDownloading (b : bool) (p : Page) : Page :=
  mkPage (receiptData p) b (previewHeight p) (previewRef p)
    (body p) (next_id p) (raster_calls p) (console_errors p) (alerts p)
    (downloads p) (uncaught p).

Definition setPreviewHeight (h : Z) (p : Page) : Page :=
  mkPage (receiptData p) (isDownloading p) h (previewRef p)
    (body p) (next_id p) (raster_calls p) (console_errors p) (alerts p)
    (downloads p) (uncaught p).

Definition setPreviewRef (r : option node) (p : Page) : Page :=
  mkPage (receiptData p) (isDownloading p) (previewHeight p) r
    (body p) (next_id p) (raster_calls p) (console_errors p) (alerts p)
    (downloads p) (uncaught p).

(** [document.body.appendChild(n)] for a node [n] just created: it gets
    the next identity and goes last. *)
Definition appendChild (n : node) (p : Page) : nat * Page :=
  (next_id p,
   mkPage (receiptData p) (isDownloading p) (previewHeight p) (previewRef p)
     (body p ++ [(next_id p, n)]) (S (next_id p)) (raster_calls p)
     (console_errors p) (alerts p) (downloads p) (uncaught p)).

Definition is_child (id : nat) (children : list (nat * node)) : bool :=
  existsb (fun c => Nat.eqb (fst c) id) children.

(** [document.body.removeChild(n)]: [None] when [n] is not a child (the
    call throws NotFoundError). *)
Definition removeChild (id : nat) (p : Page) : option Page :=
  if is_child id (body p) then
    Some (mkPage (receiptData p) (isDownloading p) (previewHeight p) (previewRef p)
            (filter (fun c => fst c ≠ id) (body p)) (next_id p) (raster_calls p)
            (console_errors p) (alerts p) (downloads p) (uncaught p))
  else None.

Definition log_raster_call (n : node) (o : Html2CanvasOptions) (p : Page) : Page :=
  mkPage (receiptData p) (isDownloading p) (previewHeight p) (previewRef p)
    (body p) (next_id p) (raster_calls p ++ [(n, o)]) (console_errors p)
    (alerts p) (downloads p) (uncaught p).

(** [console.error(msg, err)] *)
Definition console_error (msg err : string) (p : Page) : Page :=
  mkPage (receiptData p) (isDownloading p) (previewHeight p) (previewRef p)
    (body p) (next_id p) (raster_calls p)
    (console_errors p ++ [msg +:+ " " +:+ err]) (alerts p) (downloads p)
    (uncaught p).

(** [alert(msg)] *)
Definition alert (msg : string) (p : Page) : Page :=
  mkPage (receiptData p) (isDownloading p) (previewHeight p) (previewRef p)
    (body p) (next_id p) (raster_calls p) (console_errors p)
    (alerts p ++ [msg]) (downloads p) (uncaught p).

(** [link.click()] *)
Definition click_link (d : Download) (p : Page) : Page :=
  mkPage (receiptData p) (isDownloading p) (previewHeight p) (previewRef p)
    (body p) (next_id p) (raster_calls p) (console_errors p) (alerts p)
    (downloads p ++ [d]) (uncaught p).

(** An exception that leaves an async function: an unhandled rejection. *)
Definition unhandled (err : string) (p : Page) : Page :=
  mkPage (receiptData p) (isDownloading p) (previewHeight p) (previewRef p)
    (body p) (next_id p) (raster_calls p) (console_errors p) (alerts p)
    (downloads p) (uncaught p ++ [err]).

(** ** src/App.tsx: field store and preview sizing *)

Definition PREVIEW_SOURCE_WIDTH : Z := 600.
Definition PREVIEW_DISPLAY_WIDTH : Z := 600.

(** [const scale = PREVIEW_DISPLAY_WIDTH / PREVIEW_SOURCE_WIDTH] *)
Definition scale : JS.number :=
  JS.div (JS.of_Z PREVIEW_DISPLAY_WIDTH) (JS.of_Z PREVIEW_SOURCE_WIDTH).

(** [calculateHeight]: without a mounted preview the pass is skipped. *)
Definition calculateHeight (pf : Platform) (p : Page) : Page :=
  match previewRef p with
  | Some el => setPreviewHeight (offsetHeight pf el) p
  | None => p
  end.

(** The [target] of a change event. *)
Record ChangeTarget : Type := mkTarget { target_name : string; target_value : string }.

(** [handleDataChange]: [{...prevData, [name]: value}] *)
Definition handleDataChange (e : ChangeTarget) (p : Page) : Page :=
  setReceiptData (fun prevData => <[target_name e := target_value e]> prevData) p.

(** A CSS height: [auto], or a number of pixels (the number that the
    template literal interpolates before [px]). *)
Inductive css_height : Type :=
| css_auto
| css_px (x : JS.number).

(** [height: previewHeight ? `${previewHeight * scale}px` : 'auto'] *)
Definition containerHeight (p : Page) : css_height :=
  if JS.truthy (JS.of_Z (previewHeight p))
  then css_px (JS.mul (JS.of_Z (previewHeight p)) scale)
  else css_auto.

(** [transform: `scale(${scale})`]: the factor applied to the preview. *)
Definition previewTransformScale : JS.number := scale.

(** ** src/App.tsx: handleDownload *)

(** Code that returns a value or throws. *)
Inductive outcome (A : Type) : Type :=
| Return (a : A)
| Throw (err : string).
Arguments Return {A} a.
Arguments Throw {A} err.

Definition obind {A B : Type} (m : outcome A) (k : A -> outcome B) : outcome B :=
  match m with
  | Return a => k a
  | Throw e => Throw e
  end.

Notation "'do' x <- m ; k" := (obind m (fun x => k))
  (at level 10, x name, m at level 100, k at level 200).

(** [await promise] *)
Definition await (r : raster_result) : outcome Canvas :=
  match r with
  | Resolved c => Return c
  | Rejected e => Throw e
  end.

Definition is_finite (x : JS.number) : bool :=
  match x with
  | JS.Fin _ => true
  | _ => false
  end.

(** [ctx.drawImage(image, 0, 0, dw, dh)] for a canvas [image]: returns
    without drawing when an argument is not finite, and throws when the
    source canvas has no pixels. *)
Definition drawImage (image : Canvas) (dw dh : JS.number) : outcome unit :=
  if negb (is_finite dw && is_finite dh) then Return tt
  else if (canvas_width image =? 0) || (canvas_height image =? 0)
       then Throw "InvalidStateError"
       else Return tt.

Definition html2canvasOptions : Html2CanvasOptions :=
  {| opt_scale := 2; opt_backgroundColor := "#1E1E1E"; opt_useCORS := true |}.

(** The clone made before the [try]: [sourceNode.cloneNode(true)] with
    five inline style properties overwritten. *)
Definition captureClone (sourceNode : node) : node :=
  let clone := cloneNode true sourceNode in
  let clone := setStyle "position" "absolute" clone in
  let clone := setStyle "top" "0" clone in
  let clone := setStyle "left" "-9999px" clone in
  let clone := setStyle "transform" "none" clone in
  setStyle "width" (JS.toString (JS.Fin PREVIEW_SOURCE_WIDTH) +:+ "px") clone.

Definition targetWidth : Z := 840.

(** [sourceCanvas.width / sourceCanvas.height] *)
Definition sourceAspectRatio (sourceCanvas : Canvas) : JS.number :=
  JS.div (JS.of_Z (canvas_width sourceCanvas)) (JS.of_Z (canvas_height sourceCanvas)).

(** [targetWidth / sourceAspectRatio] *)
Definition targetHeight (sourceCanvas : Canvas) : JS.number :=
  JS.div (JS.of_Z targetWidth) (sourceAspectRatio sourceCanvas).

(** The canvas of step 4, after both of its dimensions are assigned. *)
Definition targetCanvas (sourceCanvas : Canvas) : Canvas :=
  set_canvas_height (targetHeight sourceCanvas)
    (set_canvas_width (JS.of_Z targetWidth) createCanvas).

(** [`hbl-confirmation-${targetWidth}x${Math.round(targetHeight)}.png`] *)
Definition downloadName (sourceCanvas : Canvas) : string :=
  "hbl-confirmation-" +:+ JS.toString (JS.Fin targetWidth) +:+ "x"
    +:+ JS.toString (JS.Math_round (targetHeight sourceCanvas)) +:+ ".png".

(** The [try] block from the point where the promise of [html2canvas]
    settles: the anchor that gets clicked, or the exception. *)
Definition tryBlock (pf : Platform) (r : raster_result) : outcome Download :=
  do sourceCanvas <- await r;
  let canvas := targetCanvas sourceCanvas in
  do _ <- (if getContext2d pf canvas then Return tt
           else Throw "Could not get 2D context from canvas");
  do _ <- drawImage sourceCanvas (JS.of_Z targetWidth) (targetHeight sourceCanvas);
  do href <- match toDataURL pf canvas with
             | Some url => Return url
             | None => Throw "SecurityError"
             end;
  Return {| download_name := downloadName sourceCanvas;
            download_href := href;
            download_image := canvas |}.

(** Where a call of [handleDownload] is suspended, with the clone it holds. *)
Inductive task : Type :=
| Settling (id : nat) (clone : node)
| Rasterizing (id : nat) (clone : node).

Definition task_id (t : task) : nat :=
  match t with
  | Settling id _ | Rasterizing id _ => id
  end.

Definition task_clone (t : task) : node :=
  match t with
  | Settling _ c | Rasterizing _ c => c
  end.

(** First segment, up to [await new Promise(... setTimeout(resolve, 300))]. *)
Definition handleDownload_begin (p : Page) : Page * option task :=
  match previewRef p with
  | None => (p, None)
  | Some sourceNode =>
      let p := setIsDownloading true p in
      let clone := captureClone sourceNode in
      let '(id, p) := appendChild clone p in
      (p, Some (Settling id clone))
  end.

(** Second segment: the delay is over, [html2canvas] is called. *)
Definition handleDownload_capture (id : nat) (clone : node) (p : Page) : Page * task :=
  (log_raster_call clone html2canvasOptions p, Rasterizing id clone).

(** The message of the [alert] in the [catch] block. *)
Definition failure_notice : string :=
  "An error occurred while generating the image. Please check the console.".

(** [catch (err)] *)
Definition catchBlock (err : string) (p : Page) : Page :=
  alert failure_notice (console_error "Failed to generate image" err p).

(** [finally]: when [removeChild] throws, the state setter after it does
    not run and the exception leaves [handleDownload]. *)
Definition finallyBlock (id : nat) (p : Page) : Page :=
  match removeChild id p with
  | Some p => setIsDownloading false p
  | None => unhandled "NotFoundError" p
  end.

(** Third segment: the promise of [html2canvas] has settled. *)
Definition handleDownload_finish (pf : Platform) (id : nat) (r : raster_result)
    (p : Page) : Page :=
  let p := match tryBlock pf r with
           | Return link => click_link link p
           | Throw err => catchBlock err p
           end in
  finallyBlock id p.

(** One call of [handleDownload] run to its end, the promise of
    [html2canvas] settling as [r]. *)
Definition handleDownload (pf : Platform) (r : raster_result) (p : Page) : Page :=
  match handleDownload_begin p with
  | (p, None) => p
  | (p, Some t) =>
      let '(p, t) := handleDownload_capture (task_id t) (task_clone t) p in
      handleDownload_finish pf (task_id t) r p
  end.

(** ** The page as a machine *)

(** The component between events: its state and the suspended calls of
    [handleDownload]. *)
Record UI : Type := mkUI { page : Page; pending : list task }.

Inductive event : Type :=
| Click                                   (* on the download button *)
| Change (e : ChangeTarget)               (* on an input field *)
| Measure                                 (* the 100ms timer, or a resize *)
| Commit (r : option node)                (* React sets [previewRef.current] *)
| DelayElapsed (id : nat)                 (* the 300ms timer of a call *)
| CaptureSettled (id : nat) (r : raster_result).

(** The first task of [l] that [f] accepts, and the others. *)
Fixpoint extract (f : task -> bool) (l : list task) : option (task * list task) :=
  match l with
  | [] => None
  | t :: l' =>
      if f t then Some (t, l')
      else match extract f l' with
           | Some (t', rest) => Some (t', t :: rest)
           | None => None
           end
  end.

Definition is_settling (id : nat) (t : task) : bool :=
  match t with
  | Settling i _ => Nat.eqb i id
  | Rasterizing _ _ => false
  end.

Definition is_rasterizing (id : nat) (t : task) : bool :=
  match t with
  | Settling _ _ => false
  | Rasterizing i _ => Nat.eqb i id
  end.

(** The button is rendered with [disabled={isDownloading}]: a disabled
    button dispatches no click. State set in a handler is committed before
    the next event is handled. *)
Definition step (pf : Platform) (ev : event) (ui : UI) : UI :=
  match ev with
  | Click =>
      if isDownloading (page ui) then ui
      else match handleDownload_begin (page ui) with
           | (p, Some t) => mkUI p (pending ui ++ [t])
           | (p, None) => mkUI p (pending ui)
           end
  | Change e => mkUI (handleDataChange e (page ui)) (pending ui)
  | Measure => mkUI (calculateHeight pf (page ui)) (pending ui)
  | Commit r => mkUI (setPreviewRef r (page ui)) (pending ui)
  | DelayElapsed id =>
      match extract (is_settling id) (pending ui) with
      | Some (t, rest) =>
          let '(p, t) := handleDownload_capture (task_id t) (task_clone t) (page ui) in
          mkUI p (rest ++ [t])
      | None => ui
      end
  | CaptureSettled id r =>
      match extract (is_rasterizing id) (pending ui) with
      | Some (t, rest) => mkUI (handleDownload_finish pf (task_id t) r (page ui)) rest
      | None => ui
      end
  end.

Definition run (pf : Platform) (evs : list event) (ui : UI) : UI :=
  foldl (fun ui ev => step pf ev ui) ui evs.

(** The page when [App] mounts: [body0] is what the document holds. *)
Definition initialPage (body0 : list (nat * node)) (next : nat) : Page :=
  {| receiptData := initialReceiptData;
     isDownloading := false;
     previewHeight := 0;
     previewRef := None;
     body := body0;
     next_id := next;
     raster_calls := [];
     console_errors := [];
     alerts := [];
     downloads := [];
     uncaught := [] |}.

Definition initialUI (body0 : list (nat * node)) (next : nat) : UI :=
  mkUI (initialPage body0 next) [].

(** Identities are handed out in order: every child of the body has one
    below the next. *)
Definition fresh_ids (p : Page) : Prop :=
  Forall (fun c => (fst c < next_id p)%nat) (body p).

(** ** The same expressions on binary64 numbers *)

Module Binary64.
Local Open Scope float_scope.

(** [targetWidth / (sourceCanvas.width / sourceCanvas.height)] *)
Definition targetHeight (w h : float) : float := 840 / (w / h).

(** [PREVIEW_DISPLAY_WIDTH / PREVIEW_SOURCE_WIDTH] *)
Definition scale : float := 600 / 600.

(** [lo <= x < hi] *)
Definition within (lo hi x : float) : bool := (lo <=? x) && (x <? hi).

(** The value of a binary64 number. *)
Definition to_number (x : float) : JS.number :=
  match Prim2SF x with
  | S754_zero _ => JS.Fin 0%Q
  | S754_infinity false => JS.PosInf
  | S754_infinity true => JS.NegInf
  | S754_nan => JS.NaN
  | S754_finite sign m e =>
      JS.Fin (Qred (inject_Z (if sign then Z.neg m else Z.pos m) * JS.pow2 e))
  end.

(** The binary64 number of an integer below 2^63. *)
Definition of_Z (z : Z) : float := PrimFloat.of_uint63 (Uint63.of_Z z).

Definition number_eqb (x y : JS.number) : bool :=
  match x, y with
  | JS.Fin a, JS.Fin b => Qeq_bool a b
  | JS.PosInf, JS.PosInf | JS.NegInf, JS.NegInf | JS.NaN, JS.NaN => true
  | _, _ => false
  end.
End Binary64.

(** Whether the target height that primitive floats give for a source canvas
    [w] x [h] is the value of [targetHeight]. *)
Definition targetHeight_agrees (w h : Z) : bool :=
  Binary64.number_eqb
    (Binary64.to_number (Binary64.targetHeight (Binary64.of_Z w) (Binary64.of_Z h)))
    (targetHeight (mkCanvas w h)).

(** The five inline style properties that [handleDownload] writes on the
    clone. *)
Definition overridden_properties : list string :=
  [ "position"; "top"; "left"; "transform"; "width" ].

(** What holds between events, [body0] being the children of the body when
    [App] mounted and [next0] the first identity not in use then: either no
    call is suspended, the flag is down and the body is [body0]; or exactly
    one call is suspended, the flag is up and the body is [body0] followed
    by the clone of that call. *)
Definition export_invariant (body0 : list (nat * node)) (next0 : nat) (ui : UI) : Prop :=
  (next0 <= next_id (page ui))%nat /\
  ((isDownloading (page ui) = false /\ pending ui = [] /\ body (page ui) = body0) \/
   (isDownloading (page ui) = true /\
    exists t, pending ui = [t] /\
              (next0 <= task_id t < next_id (page ui))%nat /\
              body (page ui) = body0 ++ [(task_id t, task_clone t)])).

(** ** A concrete page *)

Definition examplePlatform : Platform :=
  {| offsetHeight := fun _ => 814;
     getContext2d := fun _ => true;
     toDataURL := fun _ => Some "data:image/png;base64,iVBORw0KGgo=" |}.

(** A platform that hands out no 2D context. *)
Definition contextlessPlatform : Platform :=
  {| offsetHeight := fun _ => 814;
     getContext2d := fun _ => false;
     toDataURL := fun _ => Some "data:image/png;base64,iVBORw0KGgo=" |}.

(** A platform on which the preview is laid out with no height. *)
Definition collapsedPlatform : Platform :=
  {| offsetHeight := fun _ => 0;
     getContext2d := fun _ => true;
     toDataURL := fun _ => Some "data:image/png;base64,iVBORw0KGgo=" |}.

Definition exampleSurface : node :=
  Element "div" {[ "class" := "receipt" ]} {[ "width" := "600px"; "color" := "white" ]}
    [ Element "h2" ∅ ∅ [ Text "Transaction Successful" ];
      Element "p" ∅ {[ "transform" := "scale(1)" ]} [ Text "9,000" ] ].

(** The page after mount: the React root is the only child of the body. *)
Definition examplePage : Page :=
  setPreviewRef (Some exampleSurface)
    (initialPage [ (0%nat, Element "div" {[ "id" := "root" ]} ∅ []) ] 1).

(** A source canvas for a preview 600 CSS pixels wide and 814 high, captured
    at scale 2. *)
Definition exampleCapture : Canvas := mkCanvas 1200 1628.

(** ** src/App.tsx: the form *)

(** An entry of [formFields]. *)
Record FormField : Type := mkField { field_name : string; field_label : string }.

Definition formFields : list FormField :=
  [ {| field_name := "transactionId"; field_label := "Transaction ID" |};
    {| field_name := "dateTime"; field_label := "Transaction Date & Time" |};
    {| field_name := "amount"; field_label := "Transaction Amount" |};
    {| field_name := "beneficiaryName"; field_label := "Beneficiary Name" |};
    {| field_name := "beneficiaryAccount"; field_label := "Beneficiary Account/ IBAN" |} ].

(** The props of one rendered [InputField]; [input_value] is
    [receiptData[field.name]], which is [undefined] for a missing key. *)
Record InputProps : Type := mkInput {
  input_name : string;
  input_label : string;
  input_value : option string
}.

(** [formFields.map(field => <InputField ... />)] *)
Definition renderInputs (p : Page) : list InputProps :=
  map (fun f => {| input_name := field_name f;
                   input_label := field_label f;
                   input_value := receiptData p !! field_name f |}) formFields.

(** The keys of [ReceiptData] for which the form renders no input. *)
Definition fields_without_input : list string :=
  [ "fromAccount"; "purpose"; "comments"; "channel" ].

(** An event that the rendered page can produce: a change event comes from
    one of the rendered inputs and carries its name. *)
Definition from_rendered_input (ev : event) : Prop :=
  match ev with
  | Change e => target_name e ∈ map field_name formFields
  | _ => True
  end.

(** Events that leave suspended calls of [handleDownload] suspended. *)
Definition leaves_calls_suspended (ev : event) : Prop :=
  match ev with
  | DelayElapsed _ | CaptureSettled _ _ => False
  | _ => True
  end.

Definition is_rasterizing_task (t : task) : bool :=
  match t with
  | Rasterizing _ _ => true
  | Settling _ _ => false
  end.

(** ** src/App.tsx: the measuring effect *)

(** The effect [useEffect(() => {...}, [receiptData])] between events. Every
    run of the effect makes one closure [calculateHeight] and one timer; a
    run is named by its number, which stands for both. *)
Record Sizing : Type := mkSizing {
  sz_page : Page;
  sz_timers : list nat;       (* runs whose 100ms timeout is pending *)
  sz_listeners : list nat;    (* runs whose closure listens to [resize] *)
  sz_cleanup : option nat;    (* the run whose cleanup is held; [None]: not mounted *)
  sz_runs : nat               (* runs so far *)
}.

Definition with_page (f : Page -> Page) (s : Sizing) : Sizing :=
  mkSizing (f (sz_page s)) (sz_timers s) (sz_listeners s) (sz_cleanup s) (sz_runs s).

(** The body of the effect: [setTimeout(calculateHeight, 100)] and
    [window.addEventListener('resize', calculateHeight)]. *)
Definition effect_run (s : Sizing) : Sizing :=
  mkSizing (sz_page s) (sz_timers s ++ [sz_runs s]) (sz_listeners s ++ [sz_runs s])
    (Some (sz_runs s)) (S (sz_runs s)).

(** The function the effect returned, when one is held: [clearTimeout(timer)]
    and [window.removeEventListener('resize', calculateHeight)]. *)
Definition effect_cleanup (s : Sizing) : Sizing :=
  match sz_cleanup s with
  | Some n =>
      mkSizing (sz_page s) (filter (fun t => t ≠ n) (sz_timers s))
        (filter (fun l => l ≠ n) (sz_listeners s)) None (sz_runs s)
  | None => s
  end.

Inductive sizing_event : Type :=
| SzMount (el : node)            (* first commit: the ref is set, the effect runs *)
| SzChange (e : ChangeTarget)    (* an input changes: new [receiptData] object *)
| SzTimeout (n : nat)            (* the timer of run [n] is due *)
| SzResize                       (* the window is resized *)
| SzUnmount.                     (* [App] is torn down *)

Definition is_pending (n : nat) (timers : list nat) : bool :=
  existsb (Nat.eqb n) timers.

(** A new [receiptData] object is a changed dependency: the held cleanup
    runs, then the effect. An unmounted component renders no input and has
    no ref. *)
Definition sizing_step (pf : Platform) (ev : sizing_event) (s : Sizing) : Sizing :=
  match ev with
  | SzMount el =>
      match sz_cleanup s with
      | Some _ => s
      | None => effect_run (with_page (setPreviewRef (Some el)) s)
      end
  | SzChange e =>
      match sz_cleanup s with
      | Some _ => effect_run (effect_cleanup (with_page (handleDataChange e) s))
      | None => s
      end
  | SzTimeout n =>
      if is_pending n (sz_timers s)
      then mkSizing (calculateHeight pf (sz_page s)) (filter (fun t => t ≠ n) (sz_timers s))
             (sz_listeners s) (sz_cleanup s) (sz_runs s)
      else s
  | SzResize =>
      with_page (fun p => foldl (fun p _ => calculateHeight pf p) p (sz_listeners s)) s
  | SzUnmount =>
      match sz_cleanup s with
      | Some _ => effect_cleanup (with_page (setPreviewRef None) s)
      | None => s
      end
  end.

Definition sizing_run (pf : Platform) (evs : list sizing_event) (s : Sizing) : Sizing :=
  foldl (fun s ev => sizing_step pf ev s) s evs.

(** Before [App] mounts. *)
Definition initialSizing : Sizing :=
  mkSizing (initialPage [] 0) [] [] None 0.

(** Between events: unmounted with nothing registered, or mounted with the
    closure of the latest run as the one listener and at most its timer
    pending. *)
Definition sizing_invariant (s : Sizing) : Prop :=
  match sz_cleanup s with
  | None => sz_timers s = [] /\ sz_listeners s = [] /\ previewRef (sz_page s) = None
  | Some n =>
      sz_listeners s = [n] /\ (sz_timers s = [n] \/ sz_timers s = []) /\
      (n < sz_runs s)%nat /\ is_Some (previewRef (sz_page s))
  end.

Definition is_timer_or_resize (ev : sizing_event) : Prop :=
  match ev with
  | SzTimeout _ | SzResize => True
  | _ => False
  end.

(** What the record of the page adds up to between events: nothing has left
    a call of [handleDownload] as an exception; every call of the rasteriser
    was made with the fixed options; and each such call has been answered by
    one download or one notice, except the one still awaited. *)
Definition ledger_balanced (ui : UI) : Prop :=
  uncaught (page ui) = [] /\
  Forall (fun c => snd c = html2canvasOptions) (raster_calls (page ui)) /\
  length (raster_calls (page ui)) =
    (length (downloads (page ui)) + length (alerts (page ui))
     + length (filter (fun t => is_rasterizing_task t = true) (pending ui)))%nat.

(** * Properties *)

(** ** Numbers *)

Lemma is_zero_inject_Z (z : Z) : JS.is_zero (inject_Z z) = (z =? 0).
Proof.
  unfold JS.is_zero, Qeq_bool, inject_Z; simpl.
  rewrite Z.mul_1_r. reflexivity.
Qed.

Lemma Qred_inject_Z (z : Z) : Qred (inject_Z z) = inject_Z z.
Proof.
  unfold Qred, inject_Z.
  pose proof (Z.ggcd_gcd z 1) as Hg.
  pose proof (Z.ggcd_correct_divisors z 1) as Hd.
  destruct (Z.ggcd z 1) as [g [aa bb]]. simpl in Hg.
  rewrite Z.gcd_1_r in Hg. subst g. destruct Hd as [Ha Hb].
  replace aa with z by lia. replace bb with 1 by lia. reflexivity.
Qed.

Lemma mul_scale_1 (z : Z) : JS.mul (JS.of_Z z) (JS.Fin 1%Q) = JS.of_Z z.
Proof.
  unfold JS.mul, JS.of_Z. f_equal.
  transitivity (Qred (inject_Z z)); [ | apply Qred_inject_Z ].
  apply Qred_complete. ring.
Qed.

Lemma scale_is_1 : scale = JS.Fin 1%Q.
Proof. reflexivity. Qed.

Lemma truthy_of_Z (z : Z) : JS.truthy (JS.of_Z z) = negb (z =? 0).
Proof. unfold JS.truthy, JS.of_Z. now rewrite is_zero_inject_Z. Qed.

(** ** Field store *)

Lemma receiptData_handleDataChange (e : ChangeTarget) (p : Page) :
  receiptData (handleDataChange e p) = <[target_name e := target_value e]> (receiptData p).
Proof. reflexivity. Qed.

(** A recognised field is written, and no other key of the object moves. *)
Lemma handleDataChange_other_key (e : ChangeTarget) (p : Page) (k : string) :
  k ≠ target_name e ->
  receiptData (handleDataChange e p) !! k = receiptData p !! k.
Proof.
  intros Hne. rewrite receiptData_handleDataChange.
  apply lookup_insert_ne. congruence.
Qed.

Lemma nickname_unrecognised : "nickname" ∉ ReceiptField_keys.
Proof.
  unfold ReceiptField_keys. rewrite !not_elem_of_cons.
  repeat split; try discriminate. apply not_elem_of_nil.
Qed.

(** C2, as stated, fails: updating the name [nickname], which is none of the
    nine keys, on the initial state yields a [receiptData] different from
    the one before, since the object gains the property [nickname]. *)
Lemma handleDataChange_unknown_name_not_noop :
  ("nickname" ∉ ReceiptField_keys) /\
  (receiptData (handleDataChange (mkTarget "nickname" "x") (initialPage [] 0))
     ≠ receiptData (initialPage [] 0)).
Proof.
  split; [ apply nickname_unrecognised | ].
  intros Heq.
  assert (H : receiptData (handleDataChange (mkTarget "nickname" "x") (initialPage [] 0))
                !! "nickname" = Some "x")
    by (rewrite receiptData_handleDataChange; apply lookup_insert_eq).
  rewrite Heq in H. vm_compute in H. discriminate.
Qed.

(** C2, amended: for a field name that is none of the nine keys and any
    value, the stored object after the update maps that name to the value
    and reads at every other key (each of the nine recognised fields, and
    any property stored before) what it read before; nothing of the page
    but [receiptData] changes. *)
Theorem handleDataChange_unknown_name (e : ChangeTarget) (p : Page) :
  target_name e ∉ ReceiptField_keys ->
  (forall k, k ∈ ReceiptField_keys ->
     receiptData (handleDataChange e p) !! k = receiptData p !! k) /\
  (forall k, receiptData (handleDataChange e p) !! k =
               if decide (k = target_name e) then Some (target_value e)
               else receiptData p !! k) /\
  setReceiptData (fun _ => receiptData p) (handleDataChange e p) = p.
Proof.
  intros Hunknown. repeat split.
  - intros k Hk. apply handleDataChange_other_key. intros ->. contradiction.
  - intros k. rewrite receiptData_handleDataChange.
    destruct (decide (k = target_name e)) as [-> | Hne].
    + apply lookup_insert_eq.
    + apply lookup_insert_ne. congruence.
  - destruct p; reflexivity.
Qed.

Lemma handleDataChange_unknown_name_witness :
  (forall k, k ∈ ReceiptField_keys ->
     receiptData (handleDataChange (mkTarget "nickname" "x") (initialPage [] 0)) !! k
       = initialReceiptData !! k) /\
  receiptData (handleDataChange (mkTarget "nickname" "x")
                 (handleDataChange (mkTarget "alias" "y") (initialPage [] 0))) !! "alias"
    = Some "y".
Proof.
  split.
  - apply (handleDataChange_unknown_name (mkTarget "nickname" "x") (initialPage [] 0)).
    apply nickname_unrecognised.
  - rewrite (proj1 (proj2 (handleDataChange_unknown_name (mkTarget "nickname" "x")
                             (handleDataChange (mkTarget "alias" "y") (initialPage [] 0))
                             nickname_unrecognised))).
    reflexivity.
Defined.

(** ** Preview sizing *)

(** C8: for a measured height [H > 0] the container is a number of pixels
    equal, as a rational, to [H * (PREVIEW_DISPLAY_WIDTH /
    PREVIEW_SOURCE_WIDTH)], the two widths being constants; while the height
    is still [0] the container height is [auto]. *)
Theorem containerHeight_measured (p : Page) :
  (0 < previewHeight p ->
   exists q : Q,
     containerHeight p = css_px (JS.Fin q) /\
     (q == inject_Z (previewHeight p)
           * (inject_Z PREVIEW_DISPLAY_WIDTH / inject_Z PREVIEW_SOURCE_WIDTH))%Q) /\
  (previewHeight p = 0 -> containerHeight p = css_auto).
Proof.
  unfold containerHeight. rewrite truthy_of_Z. split; intros H.
  - destruct (Z.eqb_spec (previewHeight p) 0) as [E | _]; [ lia | ].
    cbn [negb]. rewrite scale_is_1, mul_scale_1.
    exists (inject_Z (previewHeight p)). split; [ reflexivity | ].
    unfold PREVIEW_DISPLAY_WIDTH, PREVIEW_SOURCE_WIDTH.
    setoid_replace (inject_Z 600 / inject_Z 600)%Q with 1%Q using relation Qeq
      by reflexivity.
    ring.
  - rewrite H. reflexivity.
Qed.

Lemma containerHeight_measured_witness :
  (exists q : Q,
     containerHeight (setPreviewHeight 812 (initialPage [] 0)) = css_px (JS.Fin q) /\
     (q == inject_Z 812 * (inject_Z 600 / inject_Z 600))%Q) /\
  containerHeight (initialPage [] 0) = css_auto.
Proof.
  split.
  - apply (proj1 (containerHeight_measured (setPreviewHeight 812 (initialPage [] 0)))).
    cbn [setPreviewHeight previewHeight]. lia.
  - apply (proj2 (containerHeight_measured (initialPage [] 0))). reflexivity.
Defined.

(** A measuring pass stores the offset height of the mounted preview, and
    is skipped without one. *)
Lemma calculateHeight_previewHeight (pf : Platform) (p : Page) :
  previewHeight (calculateHeight pf p) =
    match previewRef p with
    | Some el => offsetHeight pf el
    | None => previewHeight p
    end.
Proof. unfold calculateHeight. destruct (previewRef p); reflexivity. Qed.

(** C10, as stated, fails: when the measured height is 0 (a preview laid out
    with no height) the container height is [auto], not the measured height
    as a number of pixels. *)
Lemma containerHeight_zero_is_not_measured_height :
  previewRef examplePage = Some exampleSurface /\
  previewHeight (calculateHeight collapsedPlatform examplePage) = 0 /\
  containerHeight (calculateHeight collapsedPlatform examplePage) = css_auto /\
  containerHeight (calculateHeight collapsedPlatform examplePage)
    <> css_px (JS.of_Z (previewHeight (calculateHeight collapsedPlatform examplePage))).
Proof. repeat split. discriminate. Qed.

(** C10, amended: both width constants are 600, so the scale is the constant
    1 and the transform applied to the preview is [scale(1)]; the container
    is as high as the measured height whenever that height is not 0, and
    [auto] when it is 0. *)
Theorem scale_is_identity :
  PREVIEW_DISPLAY_WIDTH = 600 /\ PREVIEW_SOURCE_WIDTH = 600 /\
  scale = JS.Fin 1%Q /\ previewTransformScale = JS.Fin 1%Q /\
  forall p : Page,
    (previewHeight p <> 0 -> containerHeight p = css_px (JS.of_Z (previewHeight p))) /\
    (previewHeight p = 0 -> containerHeight p = css_auto).
Proof.
  split; [ reflexivity | split; [ reflexivity | ] ].
  split; [ exact scale_is_1 | split; [ exact scale_is_1 | ] ].
  intros p. unfold containerHeight. rewrite truthy_of_Z.
  destruct (Z.eqb_spec (previewHeight p) 0) as [E | NE]; cbn [negb]; split; intros H.
  - contradiction.
  - reflexivity.
  - rewrite scale_is_1. now rewrite mul_scale_1.
  - contradiction.
Qed.

Lemma scale_is_identity_witness :
  scale = JS.Fin 1%Q /\
  containerHeight (setPreviewHeight 812 (initialPage [] 0)) = css_px (JS.of_Z 812) /\
  containerHeight (initialPage [] 0) = css_auto.
Proof.
  destruct scale_is_identity as (_ & _ & Hs & _ & Hh).
  split; [ exact Hs | split ].
  - apply (proj1 (Hh (setPreviewHeight 812 (initialPage [] 0)))).
    cbn [setPreviewHeight previewHeight]. lia.
  - apply (proj2 (Hh (initialPage [] 0))). reflexivity.
Defined.

(** On binary64 numbers the quotient of the two widths is 1 as well. *)
Lemma Binary64_scale_is_1 : Binary64.scale = 1%float.
Proof. vm_compute. reflexivity. Qed.

(** ** Output dimensions and file name *)

Lemma aspect_ratio_positive (w h : Z) :
  0 < h ->
  sourceAspectRatio (mkCanvas w h) = JS.round64 (Qred (inject_Z w / inject_Z h)).
Proof.
  intros Hh. unfold sourceAspectRatio, JS.div, JS.of_Z. cbn [canvas_width canvas_height].
  rewrite is_zero_inject_Z.
  destruct (Z.eqb_spec h 0); [ lia | reflexivity ].
Qed.

(** The aspect ratio is the rounding of the quotient, so a common factor of
    width and height does not show in it. *)
Lemma aspect_ratio_scaled (k w h : Z) :
  0 < k -> 0 < h ->
  sourceAspectRatio (mkCanvas (k * w) (k * h)) = sourceAspectRatio (mkCanvas w h).
Proof.
  intros Hk Hh. rewrite !aspect_ratio_positive by lia.
  f_equal. apply Qred_complete.
  assert (~ (inject_Z h == 0)%Q) by (unfold Qeq, inject_Z; simpl; lia).
  assert (~ (inject_Z k == 0)%Q) by (unfold Qeq, inject_Z; simpl; lia).
  rewrite !inject_Z_mult. field. split; assumption.
Qed.

(** The quotients of the model are those of primitive binary64 division:
    the target heights of four captures 1200 wide, among them one whose
    exact height is the integer 791 and one whose exact height is 710.5. *)
Lemma targetHeight_agrees_with_Binary64 :
  Binary64.to_number (Binary64.targetHeight 1200 1628) = targetHeight (mkCanvas 1200 1628) /\
  Binary64.to_number (Binary64.targetHeight 1200 1130) = targetHeight (mkCanvas 1200 1130) /\
  Binary64.to_number (Binary64.targetHeight 1200 1015) = targetHeight (mkCanvas 1200 1015) /\
  Binary64.to_number (Binary64.targetHeight 1200 2030) = targetHeight (mkCanvas 1200 2030).
Proof. repeat split; vm_compute; reflexivity. Qed.

(** For every capture 1200 wide and up to 4000 high, and for every capture
    with both dimensions below 60 (a dimension 0 included), the target
    height of the model is the one primitive binary64 division gives. *)
Lemma targetHeight_agrees_with_Binary64_range :
  forallb (fun h => targetHeight_agrees 1200 (Z.of_nat h)) (seq 0 4001) = true /\
  forallb (fun w => forallb (fun h => targetHeight_agrees (Z.of_nat w) (Z.of_nat h)) (seq 0 60))
    (seq 0 60) = true.
Proof. split; vm_compute; reflexivity. Qed.

(** The two divisions lose the integer 791 and the tie 710.5: for a capture
    1200 x 1130 the canvas is 790 high and the name says 791; for 1200 x 1015
    both say 710. *)
Lemma targetHeight_is_rounded_twice :
  targetCanvas (mkCanvas 1200 1130) = mkCanvas 840 790 /\
  downloadName (mkCanvas 1200 1130) = "hbl-confirmation-840x791.png" /\
  targetCanvas (mkCanvas 1200 1015) = mkCanvas 840 710 /\
  downloadName (mkCanvas 1200 1015) = "hbl-confirmation-840x710.png".
Proof. repeat split; vm_compute; reflexivity. Qed.

Lemma Qfloor_unique (y : Q) (n : Z) :
  (inject_Z n <= y)%Q -> (y < inject_Z (n + 1))%Q -> Qfloor y = n.
Proof.
  intros Hlo Hhi. apply Z.le_antisymm.
  - assert (H : (inject_Z (Qfloor y) < inject_Z (n + 1))%Q)
      by (eapply Qle_lt_trans; [ apply Qfloor_le | exact Hhi ]).
    rewrite <- Zlt_Qlt in H. lia.
  - rewrite <- (Qfloor_Z n). now apply Qfloor_resp_le.
Qed.

(** Rounding to nearest against dropping the fraction: the same integer or
    the next, the same exactly when the fraction is below one half. *)
Lemma round_vs_integer_part (x : Q) :
  (Qfloor (x + (1 # 2)) = Qfloor x \/ Qfloor (x + (1 # 2)) = Qfloor x + 1) /\
  (Qfloor (x + (1 # 2)) = Qfloor x <-> (x - inject_Z (Qfloor x) < 1 # 2)%Q).
Proof.
  pose proof (Qfloor_le x) as Hlo. pose proof (Qlt_floor x) as Hhi.
  set (f := Qfloor x) in *. rewrite inject_Z_plus in Hhi.
  destruct (Qlt_le_dec (x - inject_Z f) (1 # 2)) as [Hlt | Hge].
  - assert (E : Qfloor (x + (1 # 2)) = f).
    { apply Qfloor_unique.
      - apply Qle_trans with x; [ exact Hlo | ].
        rewrite <- (Qplus_0_r x) at 1. apply Qplus_le_r. discriminate.
      - rewrite inject_Z_plus.
        setoid_replace (x + (1 # 2))%Q with ((x - inject_Z f) + (inject_Z f + (1 # 2)))%Q
          using relation Qeq by ring.
        setoid_replace (inject_Z f + inject_Z 1)%Q with ((1 # 2) + (inject_Z f + (1 # 2)))%Q
          using relation Qeq by (change (inject_Z 1) with 1%Q; ring).
        now apply Qplus_lt_l. }
    rewrite E. split; [ now left | split; intros; [ exact Hlt | reflexivity ] ].
  - assert (E : Qfloor (x + (1 # 2)) = f + 1).
    { apply Qfloor_unique.
      - rewrite inject_Z_plus.
        setoid_replace (x + (1 # 2))%Q with ((x - inject_Z f) + (inject_Z f + (1 # 2)))%Q
          using relation Qeq by ring.
        setoid_replace (inject_Z f + inject_Z 1)%Q with ((1 # 2) + (inject_Z f + (1 # 2)))%Q
          using relation Qeq by (change (inject_Z 1) with 1%Q; ring).
        now apply Qplus_le_l.
      - rewrite !inject_Z_plus.
        apply Qplus_lt_le_compat; [ exact Hhi | discriminate ]. }
    rewrite E. split; [ now right | split; intros H; [ lia | ] ].
    exfalso. apply (Qlt_irrefl (1 # 2)). eapply Qle_lt_trans; eassumption.
Qed.

(** The integer part of a non-negative number below 2^31 reaches the canvas
    unchanged. *)
Lemma canvas_height_of_targetHeight (sc : Canvas) (x : Q) :
  targetHeight sc = JS.Fin x -> (0 <= x)%Q -> (x < inject_Z 2147483648)%Q ->
  canvas_height (targetCanvas sc) = Qfloor x.
Proof.
  intros Hx Hlo Hhi. unfold targetCanvas, set_canvas_height. cbn [canvas_height].
  rewrite Hx. unfold JS.ToUint32, JS.IntegerPart, JS.is_neg.
  assert (Hnum : 0 <= Qnum x) by (unfold Qle in Hlo; simpl in Hlo; lia).
  destruct (Z.ltb_spec (Qnum x) 0); [ lia | ].
  assert (H0 : 0 <= Qfloor x)
    by (rewrite <- (Qfloor_Z 0); now apply Qfloor_resp_le).
  assert (H1 : Qfloor x < 2147483648).
  { assert (H2 : (inject_Z (Qfloor x) < inject_Z 2147483648)%Q)
      by (eapply Qle_lt_trans; [ apply Qfloor_le | exact Hhi ]).
    now rewrite <- Zlt_Qlt in H2. }
  rewrite Z.mod_small by lia.
  unfold reflect_dimension. destruct (Z.leb_spec (Qfloor x) 2147483647); [ reflexivity | lia ].
Qed.

(** X17: the height written in the file name is the height of the canvas or
    one more. Whenever the target height is a number [x] with
    [0 <= x < 2^31], the name carries [x] rounded to nearest and the canvas
    has the integer part of [x]; the two agree exactly when the fraction of
    [x] is below one half. *)
Theorem name_height_vs_canvas_height (sc : Canvas) (x : Q) :
  targetHeight sc = JS.Fin x -> (0 <= x)%Q -> (x < inject_Z 2147483648)%Q ->
  exists named : Z,
    JS.Math_round (targetHeight sc) = JS.Fin named /\
    (named = canvas_height (targetCanvas sc) \/
     named = canvas_height (targetCanvas sc) + 1) /\
    (named = canvas_height (targetCanvas sc)
     <-> (x - inject_Z (canvas_height (targetCanvas sc)) < 1 # 2)%Q).
Proof.
  intros Hx Hlo Hhi. exists (Qfloor (x + (1 # 2))).
  rewrite (canvas_height_of_targetHeight sc x Hx Hlo Hhi).
  split; [ now rewrite Hx | apply round_vs_integer_part ].
Qed.

Lemma name_height_vs_canvas_height_witness :
  exists named : Z,
    JS.Math_round (targetHeight (mkCanvas 1200 1130)) = JS.Fin named /\
    (named = canvas_height (targetCanvas (mkCanvas 1200 1130)) \/
     named = canvas_height (targetCanvas (mkCanvas 1200 1130)) + 1).
Proof.
  destruct (name_height_vs_canvas_height (mkCanvas 1200 1130)
              (6957709580566527 # 8796093022208)) as (named & Hname & Hor & _).
  - vm_compute. reflexivity.
  - discriminate.
  - reflexivity.
  - exists named. split; [ exact Hname | exact Hor ].
Defined.

(** C1, evaluated where it fails: for the source canvas 1200 x 1628 the
    proportional height is 1139.6 and [targetHeight] is the binary64 number
    just below it; the canvas allocated is 840 x 1139, while
    [round (840 * 1628 / 1200)] is 1140. *)
Theorem targetCanvas_height_not_rounded :
  targetCanvas exampleCapture = mkCanvas 840 1139 /\
  targetHeight exampleCapture = JS.Fin (2506006902027059 # 2199023255552) /\
  JS.Math_round (JS.div (JS.of_Z (840 * canvas_height exampleCapture))
                   (JS.of_Z (canvas_width exampleCapture))) = JS.Fin 1140.
Proof. split; [ | split ]; vm_compute; reflexivity. Qed.

(** C4, evaluated where it fails: exporting the example page with the source
    canvas 1200 x 1628 clicks one anchor, whose name says 840x1140 and whose
    image is 840 x 1139. *)
Theorem download_name_differs_from_image :
  downloads (handleDownload examplePlatform (Resolved exampleCapture) examplePage) =
    [ {| download_name := "hbl-confirmation-840x1140.png";
         download_href := "data:image/png;base64,iVBORw0KGgo=";
         download_image := mkCanvas 840 1139 |} ].
Proof. vm_compute. reflexivity. Qed.

(** On binary64 numbers [840 / (1200 / 1628)] lies in [1139.5, 1140): its
    integer part is 1139 and [Math.round] of it is 1140. *)
Lemma Binary64_targetHeight_example :
  Binary64.within 1139.5 1140 (Binary64.targetHeight 1200 1628) = true.
Proof. vm_compute. reflexivity. Qed.

(** ** The capture clone *)

Lemma cloneNode_deep (n : node) : cloneNode true n = n.
Proof.
  induction n as [t a s c IH | d] using node_deep_ind; simpl; [ | reflexivity ].
  f_equal. induction IH as [ | x l Hx _ IHl ]; simpl; [ reflexivity | ].
  now rewrite Hx, IHl.
Qed.

(** A shallow clone keeps the element and drops its children. *)
Lemma cloneNode_shallow (t : string) (a s : gmap string string) (c : list node) :
  cloneNode false (Element t a s c) = Element t a s [].
Proof. reflexivity. Qed.

Lemma captureClone_element (t : string) (a s : gmap string string) (c : list node) :
  captureClone (Element t a s c) =
    Element t a
      (<["width" := "600px"]> (<["transform" := "none"]> (<["left" := "-9999px"]>
         (<["top" := "0"]> (<["position" := "absolute"]> s))))) c.
Proof.
  unfold captureClone. rewrite cloneNode_deep. reflexivity.
Qed.

(** ** One call of handleDownload *)

Lemma is_child_appended (l : list (nat * node)) (id : nat) (n : node) :
  is_child id (l ++ [(id, n)]) = true.
Proof.
  unfold is_child. rewrite existsb_app. simpl.
  rewrite Nat.eqb_refl. now rewrite orb_true_r.
Qed.

Lemma filter_appended (l : list (nat * node)) (id next : nat) (n : node) :
  Forall (fun c => (fst c < next)%nat) l -> (next <= id)%nat ->
  filter (fun c : nat * node => fst c ≠ id) (l ++ [(id, n)]) = l.
Proof.
  intros Hl Hid. rewrite filter_app.
  rewrite (filter_cons_False _ (id, n)) by (simpl; intros H; now apply H).
  rewrite filter_nil, app_nil_r.
  induction Hl as [ | c l Hc _ IH ]; [ reflexivity | ].
  rewrite filter_cons_True by lia. now rewrite IH.
Qed.

Lemma handleDownload_begin_mounted (p : Page) (sourceNode : node) :
  previewRef p = Some sourceNode ->
  handleDownload_begin p =
    (mkPage (receiptData p) true (previewHeight p) (previewRef p)
       (body p ++ [(next_id p, captureClone sourceNode)]) (S (next_id p))
       (raster_calls p) (console_errors p) (alerts p) (downloads p) (uncaught p),
     Some (Settling (next_id p) (captureClone sourceNode))).
Proof.
  intros H. unfold handleDownload_begin. rewrite H.
  cbn. now rewrite H.
Qed.

(** The third segment on a page whose body ends with the clone of the call:
    the anchor is clicked or the failure is reported, then the clone goes
    and the flag drops. *)
Lemma handleDownload_finish_attached (pf : Platform) (r : raster_result) (p : Page)
    (body0 : list (nat * node)) (next0 id : nat) (clone : node) :
  Forall (fun c => (fst c < next0)%nat) body0 -> (next0 <= id)%nat ->
  body p = body0 ++ [(id, clone)] ->
  handleDownload_finish pf id r p =
    match tryBlock pf r with
    | Return link =>
        mkPage (receiptData p) false (previewHeight p) (previewRef p) body0
          (next_id p) (raster_calls p) (console_errors p) (alerts p)
          (downloads p ++ [link]) (uncaught p)
    | Throw err =>
        mkPage (receiptData p) false (previewHeight p) (previewRef p) body0
          (next_id p) (raster_calls p)
          (console_errors p ++ ["Failed to generate image" +:+ " " +:+ err])
          (alerts p ++ [failure_notice]) (downloads p) (uncaught p)
    end.
Proof.
  intros Hfresh Hid Hbody. unfold handleDownload_finish.
  destruct (tryBlock pf r) as [link | err];
    unfold finallyBlock, removeChild, catchBlock, alert, console_error, click_link;
    cbn [body]; rewrite Hbody, is_child_appended;
    rewrite (filter_appended body0 id next0 clone Hfresh Hid); reflexivity.
Qed.

(** A whole call from a page with a mounted preview. *)
Lemma handleDownload_mounted (pf : Platform) (r : raster_result) (p : Page)
    (sourceNode : node) :
  fresh_ids p -> previewRef p = Some sourceNode ->
  handleDownload pf r p =
    match tryBlock pf r with
    | Return link =>
        mkPage (receiptData p) false (previewHeight p) (previewRef p) (body p)
          (S (next_id p))
          (raster_calls p ++ [(captureClone sourceNode, html2canvasOptions)])
          (console_errors p) (alerts p) (downloads p ++ [link]) (uncaught p)
    | Throw err =>
        mkPage (receiptData p) false (previewHeight p) (previewRef p) (body p)
          (S (next_id p))
          (raster_calls p ++ [(captureClone sourceNode, html2canvasOptions)])
          (console_errors p ++ ["Failed to generate image" +:+ " " +:+ err])
          (alerts p ++ [failure_notice]) (downloads p) (uncaught p)
    end.
Proof.
  intros Hfresh Href. unfold handleDownload.
  rewrite (handleDownload_begin_mounted p sourceNode Href).
  cbn [handleDownload_capture task_id task_clone].
  rewrite (handleDownload_finish_attached pf r _ (body p) (next_id p) (next_id p)
             (captureClone sourceNode) Hfresh (Nat.le_refl _)) by reflexivity.
  destruct (tryBlock pf r); reflexivity.
Qed.

(** What makes the [try] block throw. *)
Lemma tryBlock_rejected (pf : Platform) (reason : string) :
  tryBlock pf (Rejected reason) = Throw reason.
Proof. reflexivity. Qed.

Lemma tryBlock_no_context (pf : Platform) (sourceCanvas : Canvas) :
  getContext2d pf (targetCanvas sourceCanvas) = false ->
  tryBlock pf (Resolved sourceCanvas) = Throw "Could not get 2D context from canvas".
Proof. intros H. unfold tryBlock. simpl. rewrite H. reflexivity. Qed.

Lemma examplePage_fresh : fresh_ids examplePage.
Proof. unfold fresh_ids. simpl. repeat constructor. Qed.

(** C7: without a mounted preview a call of [handleDownload] changes
    nothing: the page after it is the page before it (no clone in the body,
    the flag as it was, no alert), no call is left suspended, and the same
    holds for a click on the button. *)
Theorem handleDownload_without_surface (pf : Platform) (r : raster_result)
    (p : Page) (suspended : list task) :
  previewRef p = None ->
  handleDownload_begin p = (p, None) /\
  handleDownload pf r p = p /\
  step pf Click (mkUI p suspended) = mkUI p suspended.
Proof.
  intros Href.
  assert (Hbegin : handleDownload_begin p = (p, None))
    by (unfold handleDownload_begin; now rewrite Href).
  repeat split.
  - exact Hbegin.
  - unfold handleDownload. now rewrite Hbegin.
  - unfold step. cbn [page pending]. rewrite Hbegin.
    destruct (isDownloading p); reflexivity.
Qed.

Lemma handleDownload_without_surface_witness :
  handleDownload examplePlatform (Resolved exampleCapture) (initialPage [] 0)
    = initialPage [] 0.
Proof.
  apply (handleDownload_without_surface examplePlatform (Resolved exampleCapture)
           (initialPage [] 0) []).
  reflexivity.
Defined.

(** C5: a call that reaches the attachment appends the clone to the body,
    and however the rest goes (whatever the rasteriser answers, with or
    without a 2D context, whether or not the canvas can be serialised) the
    body after the call is the body before it, and no exception leaves the
    call. *)
Theorem clone_removed_on_every_path (pf : Platform) (r : raster_result) (p : Page)
    (sourceNode : node) :
  fresh_ids p -> previewRef p = Some sourceNode ->
  body (fst (handleDownload_begin p)) = body p ++ [(next_id p, captureClone sourceNode)] /\
  body (handleDownload pf r p) = body p /\
  uncaught (handleDownload pf r p) = uncaught p.
Proof.
  intros Hfresh Href. split.
  - now rewrite (handleDownload_begin_mounted p sourceNode Href).
  - rewrite (handleDownload_mounted pf r p sourceNode Hfresh Href).
    destruct (tryBlock pf r); split; reflexivity.
Qed.

Lemma clone_removed_on_every_path_witness :
  body (handleDownload examplePlatform (Resolved exampleCapture) examplePage)
    = body examplePage /\
  body (handleDownload examplePlatform (Rejected "boom") examplePage)
    = body examplePage.
Proof.
  split.
  - apply (clone_removed_on_every_path examplePlatform (Resolved exampleCapture)
             examplePage exampleSurface); [ apply examplePage_fresh | reflexivity ].
  - apply (clone_removed_on_every_path examplePlatform (Rejected "boom")
             examplePage exampleSurface); [ apply examplePage_fresh | reflexivity ].
Defined.

(** C6: when the rasteriser rejects, or no 2D context is handed out for the
    target canvas, the call shows the failure notice, ends with the flag
    down and the body as before the call, and clicks no anchor. *)
Theorem failure_is_reported (pf : Platform) (r : raster_result) (p : Page)
    (sourceNode : node) :
  fresh_ids p -> previewRef p = Some sourceNode ->
  (exists reason, r = Rejected reason) \/
  (exists sourceCanvas, r = Resolved sourceCanvas /\
                        getContext2d pf (targetCanvas sourceCanvas) = false) ->
  alerts (handleDownload pf r p) = alerts p ++ [failure_notice] /\
  isDownloading (handleDownload pf r p) = false /\
  body (handleDownload pf r p) = body p /\
  downloads (handleDownload pf r p) = downloads p.
Proof.
  intros Hfresh Href Hfail.
  rewrite (handleDownload_mounted pf r p sourceNode Hfresh Href).
  destruct Hfail as [[reason ->] | (sc & -> & Hctx)].
  - rewrite tryBlock_rejected. repeat split.
  - rewrite (tryBlock_no_context pf sc Hctx). repeat split.
Qed.

Lemma failure_is_reported_witness :
  alerts (handleDownload contextlessPlatform (Resolved exampleCapture) examplePage)
    = [failure_notice] /\
  downloads (handleDownload examplePlatform (Rejected "boom") examplePage) = [].
Proof.
  split.
  - apply (failure_is_reported contextlessPlatform (Resolved exampleCapture)
             examplePage exampleSurface); [ apply examplePage_fresh | reflexivity | ].
    right. exists exampleCapture. split; reflexivity.
  - apply (failure_is_reported examplePlatform (Rejected "boom")
             examplePage exampleSurface); [ apply examplePage_fresh | reflexivity | ].
    left. exists "boom". reflexivity.
Defined.

(** C9: the node given to the rasteriser is the source element with the
    same tag, attributes and children, and with an inline style that reads
    [absolute], [0], [-9999px], [none] and [600px] at [position], [top],
    [left], [transform] and [width] and is the source's style at every
    other property. *)
Theorem captureClone_differs_only_in_overrides (pf : Platform) (r : raster_result)
    (p : Page) (t : string) (a s : gmap string string) (c : list node) :
  fresh_ids p -> previewRef p = Some (Element t a s c) ->
  exists s' : gmap string string,
    raster_calls (handleDownload pf r p) =
      raster_calls p ++ [(Element t a s' c, html2canvasOptions)] /\
    snd (handleDownload_begin p) = Some (Settling (next_id p) (Element t a s' c)) /\
    s' !! "position" = Some "absolute" /\
    s' !! "top" = Some "0" /\
    s' !! "left" = Some "-9999px" /\
    s' !! "transform" = Some "none" /\
    s' !! "width" = Some "600px" /\
    (forall k, k ∉ overridden_properties -> s' !! k = s !! k).
Proof.
  intros Hfresh Href. eexists. split; [ | split ].
  - rewrite (handleDownload_mounted pf r p _ Hfresh Href), captureClone_element.
    destruct (tryBlock pf r); reflexivity.
  - rewrite (handleDownload_begin_mounted p _ Href), captureClone_element. reflexivity.
  - repeat split; try (now simplify_map_eq).
    intros k Hk. unfold overridden_properties in Hk.
    rewrite !not_elem_of_cons in Hk. destruct Hk as (H1 & H2 & H3 & H4 & H5 & _).
    now rewrite !lookup_insert_ne by congruence.
Qed.

Lemma captureClone_differs_only_in_overrides_witness :
  exists s' : gmap string string,
    raster_calls (handleDownload examplePlatform (Resolved exampleCapture) examplePage) =
      [ (Element "div" {[ "class" := "receipt" ]} s'
           [ Element "h2" ∅ ∅ [ Text "Transaction Successful" ];
             Element "p" ∅ {[ "transform" := "scale(1)" ]} [ Text "9,000" ] ],
         html2canvasOptions) ] /\
    s' !! "width" = Some "600px" /\
    s' !! "color" = Some "white".
Proof.
  destruct (captureClone_differs_only_in_overrides examplePlatform
              (Resolved exampleCapture) examplePage "div" {[ "class" := "receipt" ]}
              {[ "width" := "600px"; "color" := "white" ]}
              [ Element "h2" ∅ ∅ [ Text "Transaction Successful" ];
                Element "p" ∅ {[ "transform" := "scale(1)" ]} [ Text "9,000" ] ])
    as (s' & Hcall & _ & _ & _ & _ & _ & Hwidth & Hother).
  - apply examplePage_fresh.
  - reflexivity.
  - exists s'. split; [ exact Hcall | split; [ exact Hwidth | ] ].
    rewrite Hother; [ reflexivity | ].
    clear. unfold overridden_properties. rewrite !not_elem_of_cons.
    repeat split; try discriminate. apply not_elem_of_nil.
Defined.

(** ** The busy flag and the button *)

(** [handleDownload] itself does not read the flag: begun on a page whose
    flag is up, it attaches one more clone. The guard is the button. *)
Lemma handleDownload_begin_reads_no_flag (p : Page) (sourceNode : node) :
  isDownloading p = true -> previewRef p = Some sourceNode ->
  body (fst (handleDownload_begin p)) = body p ++ [(next_id p, captureClone sourceNode)].
Proof.
  intros _ Href. now rewrite (handleDownload_begin_mounted p sourceNode Href).
Qed.

Lemma step_click_busy (pf : Platform) (ui : UI) :
  isDownloading (page ui) = true -> step pf Click ui = ui.
Proof. intros H. unfold step. now rewrite H. Qed.

Lemma extract_single (f : task -> bool) (t : task) :
  extract f [t] = if f t then Some (t, []) else None.
Proof. simpl. destruct (f t); reflexivity. Qed.

Lemma export_invariant_initial (body0 : list (nat * node)) (next0 : nat) :
  export_invariant body0 next0 (initialUI body0 next0).
Proof. split; [ apply Nat.le_refl | left; repeat split ]. Qed.

(** Every event keeps the invariant. *)
Lemma export_invariant_step (pf : Platform) (body0 : list (nat * node)) (next0 : nat)
    (ev : event) (ui : UI) :
  Forall (fun c => (fst c < next0)%nat) body0 ->
  export_invariant body0 next0 ui ->
  export_invariant body0 next0 (step pf ev ui).
Proof.
  intros Hfresh [Hnext Hstate]. destruct ui as [p tasks]. cbn [page pending] in *.
  destruct ev as [ | e | | ref | id | id r ]; unfold step; cbn [page pending].
  - (* Click *)
    destruct Hstate as [(Hidle & -> & Hbody) | (Hbusy & Hrest)].
    + rewrite Hidle. destruct (previewRef p) as [sourceNode | ] eqn:Href.
      * rewrite (handleDownload_begin_mounted p sourceNode Href). cbn [app].
        split; cbn [page pending next_id]; [ lia | right ].
        split; [ reflexivity | ].
        exists (Settling (next_id p) (captureClone sourceNode)).
        cbn [task_id task_clone body]. rewrite Hbody. repeat split; lia.
      * unfold handleDownload_begin. rewrite Href.
        split; [ assumption | left; repeat split; assumption ].
    + rewrite Hbusy. split; [ assumption | right; split; assumption ].
  - (* Change *)
    split; [ assumption | exact Hstate ].
  - (* Measure *)
    unfold calculateHeight. destruct (previewRef p); split; assumption.
  - (* Commit *)
    split; [ assumption | exact Hstate ].
  - (* DelayElapsed *)
    destruct Hstate as [(Hidle & -> & Hbody) | (Hbusy & t & -> & Hid & Hbody)].
    + cbn [extract]. split; [ assumption | left; repeat split; assumption ].
    + rewrite extract_single. destruct (is_settling id t).
      * cbn [handleDownload_capture app]. split; [ assumption | right ].
        split; [ assumption | ].
        exists (Rasterizing (task_id t) (task_clone t)).
        cbn [pending page task_id task_clone log_raster_call next_id body].
        split; [ reflexivity | split; [ lia | exact Hbody ] ].
      * split; [ assumption | right; split; [ assumption | ] ].
        exists t. cbn [page pending].
        split; [ reflexivity | split; [ lia | exact Hbody ] ].
  - (* CaptureSettled *)
    destruct Hstate as [(Hidle & -> & Hbody) | (Hbusy & t & -> & Hid & Hbody)].
    + cbn [extract]. split; [ assumption | left; repeat split; assumption ].
    + rewrite extract_single. destruct (is_rasterizing id t).
      * rewrite (handleDownload_finish_attached pf r p body0 next0 (task_id t)
                   (task_clone t) Hfresh (proj1 Hid) Hbody).
        destruct (tryBlock pf r); (split; [ assumption | left; repeat split ]).
      * split; [ assumption | right; split; [ assumption | ] ].
        exists t. cbn [page pending].
        split; [ reflexivity | split; [ lia | exact Hbody ] ].
Qed.

Lemma export_invariant_run (pf : Platform) (body0 : list (nat * node)) (next0 : nat)
    (evs : list event) (ui : UI) :
  Forall (fun c => (fst c < next0)%nat) body0 ->
  export_invariant body0 next0 ui ->
  export_invariant body0 next0 (run pf evs ui).
Proof.
  intros Hfresh. revert ui.
  induction evs as [ | ev evs IH ]; intros ui Hinv; [ exact Hinv | ].
  cbn [run foldl]. apply IH. now apply export_invariant_step.
Qed.

(** C3, as stated, fails: [handleDownload] invoked while the flag is up is
    neither rejected nor ignored. Begun a second time on the page that the
    first call left busy, it attaches a second clone: the body goes from the
    root alone to the root and two clones. *)
Lemma second_invocation_attaches_second_clone :
  isDownloading (fst (handleDownload_begin examplePage)) = true /\
  length (body examplePage) = 1%nat /\
  length (body (fst (handleDownload_begin examplePage))) = 2%nat /\
  length (body (fst (handleDownload_begin (fst (handleDownload_begin examplePage))))) = 3%nat /\
  isDownloading (fst (handleDownload_begin (fst (handleDownload_begin examplePage)))) = true.
Proof. vm_compute. repeat split. Qed.

(** C3, amended: exports started from the download button are not
    re-entrant. After any sequence of events on the mounted page:
    - the flag is up exactly while one call of [handleDownload] is suspended,
      and the body then holds the initial children and the one clone of that
      call, otherwise the initial children alone;
    - a click on an idle page with a mounted preview raises the flag and
      attaches one clone;
    - a click while the flag is up changes nothing, the button being
      disabled;
    - the end of the delay leaves the flag as it is;
    - the settling of the capture, resolved or rejected, lowers the flag and
      leaves the initial children alone. *)
Theorem export_through_button_is_not_reentrant (pf : Platform)
    (body0 : list (nat * node)) (next0 : nat) (evs : list event) :
  Forall (fun c => (fst c < next0)%nat) body0 ->
  export_invariant body0 next0 (run pf evs (initialUI body0 next0)) /\
  (length (body (page (run pf evs (initialUI body0 next0)))) <= S (length body0))%nat /\
  (forall sourceNode,
     isDownloading (page (run pf evs (initialUI body0 next0))) = false ->
     previewRef (page (run pf evs (initialUI body0 next0))) = Some sourceNode ->
     isDownloading (page (run pf (evs ++ [Click]) (initialUI body0 next0))) = true /\
     pending (run pf (evs ++ [Click]) (initialUI body0 next0)) =
       [ Settling (next_id (page (run pf evs (initialUI body0 next0))))
           (captureClone sourceNode) ] /\
     body (page (run pf (evs ++ [Click]) (initialUI body0 next0))) =
       body0 ++ [ (next_id (page (run pf evs (initialUI body0 next0))),
                   captureClone sourceNode) ]) /\
  (isDownloading (page (run pf evs (initialUI body0 next0))) = true ->
   run pf (evs ++ [Click]) (initialUI body0 next0) = run pf evs (initialUI body0 next0)) /\
  (forall id,
     isDownloading (page (run pf (evs ++ [DelayElapsed id]) (initialUI body0 next0))) =
       isDownloading (page (run pf evs (initialUI body0 next0)))) /\
  (forall id clone r,
     pending (run pf evs (initialUI body0 next0)) = [Rasterizing id clone] ->
     isDownloading (page (run pf (evs ++ [CaptureSettled id r]) (initialUI body0 next0)))
       = false /\
     pending (run pf (evs ++ [CaptureSettled id r]) (initialUI body0 next0)) = [] /\
     body (page (run pf (evs ++ [CaptureSettled id r]) (initialUI body0 next0))) = body0).
Proof.
  intros Hfresh.
  pose proof (export_invariant_run pf body0 next0 evs _ Hfresh
                (export_invariant_initial body0 next0)) as Hinv.
  unfold run in *. setoid_rewrite foldl_snoc.
  set (ui := foldl (fun ui ev => step pf ev ui) (initialUI body0 next0) evs) in *.
  split; [ exact Hinv | ]. destruct Hinv as [Hnext Hstate].
  split; [ | split; [ | split; [ | split ] ] ].
  - destruct Hstate as [(_ & _ & ->) | (_ & t & _ & _ & ->)].
    + lia.
    + rewrite length_app. cbn [length]. lia.
  - intros sourceNode Hidle Href.
    destruct Hstate as [(_ & Hpending & Hbody) | (Hbusy & _)]; [ | congruence ].
    unfold step. rewrite Hidle, (handleDownload_begin_mounted _ sourceNode Href), Hpending.
    cbn [page pending isDownloading body app]. rewrite Hbody. repeat split.
  - apply step_click_busy.
  - intros id. unfold step.
    destruct (extract (is_settling id) (pending ui)) as [[t rest] | ]; reflexivity.
  - intros id clone r Hpending.
    destruct Hstate as [(_ & Hnone & _) | (_ & t & Hone & Hid & Hbody)]; [ congruence | ].
    assert (t = Rasterizing id clone) by congruence. subst t.
    unfold step. rewrite Hpending. cbn [extract is_rasterizing]. rewrite Nat.eqb_refl.
    cbn [task_id task_clone page pending] in *.
    rewrite (handleDownload_finish_attached pf r (page ui) body0 next0 id clone
               Hfresh (proj1 Hid) Hbody).
    destruct (tryBlock pf r); repeat split.
Qed.

Lemma export_through_button_is_not_reentrant_witness :
  isDownloading
    (page (run examplePlatform ([ Commit (Some exampleSurface) ] ++ [Click])
             (initialUI [ (0%nat, Element "div" {[ "id" := "root" ]} ∅ []) ] 1))) = true /\
  (length (body (page (run examplePlatform
                         [ Commit (Some exampleSurface); Click; Click; DelayElapsed 1; Click ]
                         (initialUI [ (0%nat, Element "div" {[ "id" := "root" ]} ∅ []) ] 1))))
   <= 2)%nat.
Proof.
  split.
  - apply (proj1 (proj2 (proj2 (export_through_button_is_not_reentrant examplePlatform
                                  [ (0%nat, Element "div" {[ "id" := "root" ]} ∅ []) ] 1
                                  [ Commit (Some exampleSurface) ]
                                  ltac:(repeat constructor))))
             exampleSurface eq_refl eq_refl).
  - apply (proj1 (proj2 (export_through_button_is_not_reentrant examplePlatform
                           [ (0%nat, Element "div" {[ "id" := "root" ]} ∅ []) ] 1
                           [ Commit (Some exampleSurface); Click; Click; DelayElapsed 1; Click ]
                           ltac:(repeat constructor)))).
Defined.

(** Three clicks on the example page: one clone, one suspended call. *)
Lemma three_clicks_one_clone :
  let ui := run examplePlatform
              [ Commit (Some exampleSurface); Click; Click; DelayElapsed 1; Click ]
              (initialUI [ (0%nat, Element "div" {[ "id" := "root" ]} ∅ []) ] 1) in
  isDownloading (page ui) = true /\
  pending ui = [ Rasterizing 1 (captureClone exampleSurface) ] /\
  length (body (page ui)) = 2%nat.
Proof. vm_compute. repeat split. Qed.

(** Once the capture settles the body is back to the root alone and the
    flag is down, whether the capture succeeded or not. *)
Lemma export_round_trip (r : raster_result) :
  let ui := run examplePlatform
              [ Commit (Some exampleSurface); Click; DelayElapsed 1; CaptureSettled 1 r ]
              (initialUI [ (0%nat, Element "div" {[ "id" := "root" ]} ∅ []) ] 1) in
  isDownloading (page ui) = false /\
  pending ui = [] /\
  body (page ui) = [ (0%nat, Element "div" {[ "id" := "root" ]} ∅ []) ].
Proof.
  cbn [run foldl step page pending initialUI initialPage isDownloading].
  unfold handleDownload_begin. cbn.
  unfold handleDownload_finish. destruct (tryBlock examplePlatform r); cbn; repeat split.
Qed.

(** * Further properties *)

(** ** The field store and the form *)

(** X1: a change event writes exactly one field. The field named by the
    event reads back the typed value, every other key reads as before, each
    rendered input shows the typed value if it carries that name and its
    previous value otherwise, and nothing of the page but [receiptData]
    changes. *)
Theorem handleDataChange_writes_one_field (e : ChangeTarget) (p : Page) :
  receiptData (handleDataChange e p) !! target_name e = Some (target_value e) /\
  (forall k, k ≠ target_name e ->
     receiptData (handleDataChange e p) !! k = receiptData p !! k) /\
  renderInputs (handleDataChange e p) =
    map (fun i => if decide (input_name i = target_name e)
                  then mkInput (input_name i) (input_label i) (Some (target_value e))
                  else i)
      (renderInputs p) /\
  setReceiptData (fun _ => receiptData p) (handleDataChange e p) = p.
Proof.
  split; [ | split; [ | split ] ].
  - rewrite receiptData_handleDataChange. apply lookup_insert_eq.
  - intros k Hk. rewrite receiptData_handleDataChange.
    apply lookup_insert_ne. congruence.
  - unfold renderInputs. rewrite map_map. apply map_ext. intros f. cbn [input_name].
    rewrite receiptData_handleDataChange.
    destruct (decide (field_name f = target_name e)) as [-> | Hne].
    + now rewrite lookup_insert_eq.
    + rewrite lookup_insert_ne by congruence. reflexivity.
  - destruct p; reflexivity.
Qed.

Lemma handleDataChange_writes_one_field_witness :
  receiptData (handleDataChange (mkTarget "amount" "12,500") examplePage) !! "amount"
    = Some "12,500" /\
  receiptData (handleDataChange (mkTarget "amount" "12,500") examplePage) !! "purpose"
    = Some "Others".
Proof.
  destruct (handleDataChange_writes_one_field (mkTarget "amount" "12,500") examplePage)
    as (Hnew & Hother & _).
  split; [ exact Hnew | ].
  rewrite Hother; [ reflexivity | discriminate ].
Defined.

(** X2: of two changes to the same field the later one wins, and changes to
    different fields can be applied in either order. *)
Theorem handleDataChange_compose (e1 e2 : ChangeTarget) (p : Page) :
  (target_name e1 = target_name e2 ->
   handleDataChange e2 (handleDataChange e1 p) = handleDataChange e2 p) /\
  (target_name e1 ≠ target_name e2 ->
   handleDataChange e2 (handleDataChange e1 p) = handleDataChange e1 (handleDataChange e2 p)).
Proof.
  split; intros H; unfold handleDataChange, setReceiptData; cbn; f_equal.
  - rewrite H. apply insert_insert_eq.
  - apply insert_insert_ne. congruence.
Qed.

Lemma handleDataChange_compose_witness :
  handleDataChange (mkTarget "amount" "2") (handleDataChange (mkTarget "amount" "1") examplePage)
    = handleDataChange (mkTarget "amount" "2") examplePage /\
  handleDataChange (mkTarget "dateTime" "now")
      (handleDataChange (mkTarget "amount" "1") examplePage)
    = handleDataChange (mkTarget "amount" "1")
        (handleDataChange (mkTarget "dateTime" "now") examplePage).
Proof.
  split.
  - apply (proj1 (handleDataChange_compose (mkTarget "amount" "1") (mkTarget "amount" "2")
                    examplePage)). reflexivity.
  - apply (proj2 (handleDataChange_compose (mkTarget "amount" "1")
                    (mkTarget "dateTime" "now") examplePage)). discriminate.
Defined.

(** The third segment leaves the component's data, the measured height,
    the ref and the record of rasteriser calls alone. *)
Lemma handleDownload_finish_frame (pf : Platform) (id : nat) (r : raster_result)
    (p : Page) :
  receiptData (handleDownload_finish pf id r p) = receiptData p /\
  previewHeight (handleDownload_finish pf id r p) = previewHeight p /\
  previewRef (handleDownload_finish pf id r p) = previewRef p /\
  raster_calls (handleDownload_finish pf id r p) = raster_calls p /\
  next_id (handleDownload_finish pf id r p) = next_id p.
Proof.
  unfold handleDownload_finish, finallyBlock, removeChild.
  destruct (tryBlock pf r); cbn [body click_link catchBlock alert console_error];
    match goal with |- context [is_child ?i ?b] => destruct (is_child i b) end;
    repeat split.
Qed.

(** Only a change event touches [receiptData]. *)
Lemma step_receiptData (pf : Platform) (ev : event) (ui : UI) :
  receiptData (page (step pf ev ui)) =
    match ev with
    | Change e => <[target_name e := target_value e]> (receiptData (page ui))
    | _ => receiptData (page ui)
    end.
Proof.
  destruct ui as [p tasks]. destruct ev as [ | e | | ref | id | id r ];
    unfold step; cbn [page pending].
  - destruct (isDownloading p); [ reflexivity | ].
    unfold handleDownload_begin. destruct (previewRef p); reflexivity.
  - reflexivity.
  - unfold calculateHeight. destruct (previewRef p); reflexivity.
  - reflexivity.
  - destruct (extract (is_settling id) tasks) as [[t rest] | ]; reflexivity.
  - destruct (extract (is_rasterizing id) tasks) as [[t rest] | ]; [ | reflexivity ].
    cbn [page]. apply handleDownload_finish_frame.
Qed.

Ltac split_elem_of H :=
  repeat (apply elem_of_cons in H as [-> | H]); [ .. | now apply elem_of_nil in H ].

(** The initial object has the nine keys and no other. *)
Lemma initialReceiptData_keys (k : string) :
  is_Some (initialReceiptData !! k) <-> k ∈ ReceiptField_keys.
Proof.
  split.
  - intros Hk. unfold initialReceiptData in Hk. cbn [list_to_map foldr fst snd] in Hk.
    unfold ReceiptField_keys.
    repeat (rewrite lookup_insert in Hk; case_decide;
            [ subst k; rewrite ?elem_of_cons; tauto | ]).
    rewrite lookup_empty in Hk. now destruct Hk.
  - intros Hk. unfold ReceiptField_keys in Hk.
    split_elem_of Hk; eexists; reflexivity.
Qed.

(** X3: whatever happens on the page (any events, any field names in the
    change events) each of the nine fields of [ReceiptData] keeps having a
    value. *)
Theorem fields_always_present (pf : Platform) (body0 : list (nat * node)) (next0 : nat)
    (evs : list event) (k : string) :
  k ∈ ReceiptField_keys ->
  is_Some (receiptData (page (run pf evs (initialUI body0 next0))) !! k).
Proof.
  intros Hk.
  assert (Hinit : is_Some (receiptData (page (initialUI body0 next0)) !! k))
    by now apply initialReceiptData_keys.
  revert Hinit. generalize (initialUI body0 next0).
  induction evs as [ | ev evs IH ]; intros ui Hui; [ exact Hui | ].
  cbn [run foldl]. apply IH. rewrite step_receiptData.
  destruct ev; try exact Hui.
  apply lookup_insert_is_Some. destruct (decide (target_name e = k)); [ now left | now right ].
Qed.

Lemma fields_always_present_witness :
  is_Some (receiptData (page (run examplePlatform
                                [ Change (mkTarget "nickname" "x"); Click;
                                  Change (mkTarget "channel" "") ]
                                (initialUI [] 0))) !! "channel").
Proof.
  apply fields_always_present.
  unfold ReceiptField_keys. rewrite !elem_of_cons. tauto.
Defined.

(** X4: as long as change events come from the five rendered inputs, the
    object keeps exactly the nine keys, and the four fields that have no
    input ([fromAccount], [purpose], [comments], [channel]) keep their
    initial values. *)
Theorem form_edits_only_its_fields (pf : Platform) (body0 : list (nat * node))
    (next0 : nat) (evs : list event) :
  Forall from_rendered_input evs ->
  (forall k, is_Some (receiptData (page (run pf evs (initialUI body0 next0))) !! k)
             <-> k ∈ ReceiptField_keys) /\
  (forall k, k ∈ fields_without_input ->
     receiptData (page (run pf evs (initialUI body0 next0))) !! k = initialReceiptData !! k).
Proof.
  intros Hevs.
  assert (Hinit : (forall k, is_Some (receiptData (page (initialUI body0 next0)) !! k)
                             <-> k ∈ ReceiptField_keys) /\
                  (forall k, k ∈ fields_without_input ->
                     receiptData (page (initialUI body0 next0)) !! k = initialReceiptData !! k))
    by (split; [ apply initialReceiptData_keys | reflexivity ]).
  revert Hinit. generalize (initialUI body0 next0).
  induction Hevs as [ | ev evs Hev _ IH ]; intros ui Hui; [ exact Hui | ].
  cbn [run foldl]. apply IH. rewrite step_receiptData.
  destruct ev; try exact Hui.
  destruct Hui as [Hkeys Hhidden]. cbn [from_rendered_input] in Hev.
  assert (Hrecognised : target_name e ∈ ReceiptField_keys)
    by (unfold formFields in Hev; cbn [map field_name] in Hev;
        unfold ReceiptField_keys; split_elem_of Hev; rewrite !elem_of_cons; tauto).
  split.
  - intros k. rewrite lookup_insert_is_Some. split.
    + intros [<- | [_ H]]; [ assumption | now apply Hkeys ].
    + intros H. destruct (decide (target_name e = k)); [ now left | right ].
      split; [ assumption | now apply Hkeys ].
  - intros k Hk. rewrite lookup_insert_ne; [ now apply Hhidden | ].
    intros Heq. rewrite <- Heq in Hk. clear -Hev Hk.
    set (n := target_name e) in *. clearbody n.
    unfold formFields in Hev. cbn [map field_name] in Hev. unfold fields_without_input in Hk.
    split_elem_of Hev; rewrite !elem_of_cons, elem_of_nil in Hk; intuition discriminate.
Qed.

Lemma form_edits_only_its_fields_witness :
  receiptData (page (run examplePlatform
                       [ Change (mkTarget "amount" "1"); Click; Change (mkTarget "dateTime" "") ]
                       (initialUI [] 0))) !! "channel"
    = Some "via HBL PAY".
Proof.
  apply (form_edits_only_its_fields examplePlatform [] 0
           [ Change (mkTarget "amount" "1"); Click; Change (mkTarget "dateTime" "") ]).
  - repeat constructor; cbn; rewrite !elem_of_cons; tauto.
  - unfold fields_without_input. rewrite !elem_of_cons. tauto.
Defined.

(** ** Measuring *)

(** X5: measuring is idempotent and changes nothing but [previewHeight];
    without a mounted preview it changes nothing at all, so the last known
    height stays. *)
Theorem calculateHeight_idempotent (pf : Platform) (p : Page) :
  calculateHeight pf (calculateHeight pf p) = calculateHeight pf p /\
  setPreviewHeight (previewHeight p) (calculateHeight pf p) = p /\
  (previewRef p = None -> calculateHeight pf p = p).
Proof.
  unfold calculateHeight. destruct (previewRef p) as [el | ] eqn:Href.
  - cbn [setPreviewHeight previewRef]. rewrite Href.
    repeat split; [ destruct p; reflexivity | discriminate ].
  - rewrite Href. repeat split. destruct p; reflexivity.
Qed.

Lemma calculateHeight_idempotent_witness :
  calculateHeight examplePlatform (setPreviewHeight 5 (initialPage [] 0))
    = setPreviewHeight 5 (initialPage [] 0).
Proof.
  apply (calculateHeight_idempotent examplePlatform (setPreviewHeight 5 (initialPage [] 0))).
  reflexivity.
Defined.

(** X6: after a measuring pass on a mounted preview whose offset height is
    [H], the container is exactly [H] pixels high, or [auto] when [H] is 0. *)
Theorem measured_container_height (pf : Platform) (p : Page) (el : node) :
  previewRef p = Some el ->
  containerHeight (calculateHeight pf p) =
    if offsetHeight pf el =? 0 then css_auto else css_px (JS.of_Z (offsetHeight pf el)).
Proof.
  intros Href. unfold calculateHeight. rewrite Href.
  unfold containerHeight. cbn [setPreviewHeight previewHeight].
  rewrite truthy_of_Z. destruct (offsetHeight pf el =? 0); cbn [negb]; [ reflexivity | ].
  now rewrite scale_is_1, mul_scale_1.
Qed.

Lemma measured_container_height_witness :
  containerHeight (calculateHeight examplePlatform examplePage) = css_px (JS.of_Z 814).
Proof.
  apply (measured_container_height examplePlatform examplePage exampleSurface).
  reflexivity.
Defined.

(** ** The measuring effect *)

Lemma with_page_id (s : Sizing) : with_page (fun p => p) s = s.
Proof. destruct s; reflexivity. Qed.

Lemma previewRef_calculateHeight (pf : Platform) (p : Page) :
  previewRef (calculateHeight pf p) = previewRef p.
Proof. unfold calculateHeight. destruct (previewRef p) eqn:E; exact E. Qed.

Lemma filter_single_out (n : nat) : filter (fun t : nat => t ≠ n) [n] = [].
Proof. rewrite filter_cons_False by (intros H; now apply H). apply filter_nil. Qed.

Lemma is_pending_single (k n : nat) : is_pending k [n] = true -> k = n.
Proof.
  unfold is_pending. cbn [existsb]. rewrite orb_false_r. apply Nat.eqb_eq.
Qed.

(** Every event keeps the invariant of the effect. *)
Lemma sizing_invariant_step (pf : Platform) (ev : sizing_event) (s : Sizing) :
  sizing_invariant s -> sizing_invariant (sizing_step pf ev s).
Proof.
  destruct s as [p timers listeners cleanup runs]. unfold sizing_invariant.
  cbn [sz_cleanup sz_timers sz_listeners sz_page sz_runs].
  destruct cleanup as [n | ].
  - intros (-> & Htimers & Hn & Href).
    destruct ev as [ el | e | k | | ]; cbn [sizing_step sz_cleanup].
    + cbn. auto.
    + unfold effect_run, effect_cleanup, with_page.
      cbn [sz_cleanup sz_timers sz_listeners sz_page sz_runs].
      rewrite filter_single_out.
      assert (Ht : filter (fun t : nat => t ≠ n) timers = [])
        by (destruct Htimers as [-> | ->]; [ apply filter_single_out | apply filter_nil ]).
      rewrite Ht. cbn [app]. repeat split; auto.
    + cbn [sz_timers]. destruct (is_pending k timers) eqn:Hk.
      * cbn [sz_cleanup sz_timers sz_listeners sz_page sz_runs].
        rewrite previewRef_calculateHeight. repeat split; auto.
        destruct Htimers as [-> | ->]; [ | discriminate Hk ].
        apply is_pending_single in Hk. subst k. right. apply filter_single_out.
      * cbn. auto.
    + unfold with_page. cbn [sz_cleanup sz_timers sz_listeners sz_page sz_runs foldl].
      rewrite previewRef_calculateHeight. auto.
    + unfold effect_cleanup, with_page.
      cbn [sz_cleanup sz_timers sz_listeners sz_page sz_runs].
      rewrite filter_single_out.
      destruct Htimers as [-> | ->]; [ rewrite filter_single_out | rewrite filter_nil ];
        repeat split.
  - intros (-> & -> & Href).
    destruct ev as [ el | e | k | | ]; cbn [sizing_step sz_cleanup].
    + unfold effect_run, with_page.
      cbn [sz_cleanup sz_timers sz_listeners sz_page sz_runs app].
      repeat split; cbn; eauto.
    + cbn. auto.
    + cbn. auto.
    + unfold with_page. cbn. auto.
    + cbn. auto.
Qed.

Lemma sizing_invariant_run (pf : Platform) (evs : list sizing_event) (s : Sizing) :
  sizing_invariant s -> sizing_invariant (sizing_run pf evs s).
Proof.
  revert s. induction evs as [ | ev evs IH ]; intros s Hs; [ exact Hs | ].
  cbn [sizing_run foldl]. apply IH. now apply sizing_invariant_step.
Qed.

Lemma sizing_invariant_initial : sizing_invariant initialSizing.
Proof. cbn. auto. Qed.

(** X7: the effect leaks nothing. After any sequence of mounts, edits, due
    timers, resizes and unmounts, a mounted component has exactly one resize
    listener (that of the latest run of the effect) and at most one pending
    timer (that of the same run), and an unmounted one has neither. *)
Theorem effect_does_not_leak (pf : Platform) (evs : list sizing_event) :
  sizing_invariant (sizing_run pf evs initialSizing) /\
  (length (sz_listeners (sizing_run pf evs initialSizing)) <= 1)%nat /\
  (length (sz_timers (sizing_run pf evs initialSizing)) <= 1)%nat /\
  (sz_cleanup (sizing_run pf evs initialSizing) = None ->
   sz_listeners (sizing_run pf evs initialSizing) = [] /\
   sz_timers (sizing_run pf evs initialSizing) = []).
Proof.
  pose proof (sizing_invariant_run pf evs initialSizing sizing_invariant_initial) as Hinv.
  split; [ exact Hinv | ].
  unfold sizing_invariant in Hinv.
  destruct (sz_cleanup (sizing_run pf evs initialSizing)) as [n | ].
  - destruct Hinv as (-> & [-> | ->] & _); cbn; repeat split; try lia; discriminate.
  - destruct Hinv as (-> & -> & _). cbn. repeat split; lia.
Qed.

Lemma effect_does_not_leak_witness :
  sz_listeners (sizing_run examplePlatform
                  [ SzMount exampleSurface; SzChange (mkTarget "amount" "1"); SzResize;
                    SzChange (mkTarget "amount" "12"); SzUnmount ]
                  initialSizing) = [].
Proof.
  apply (effect_does_not_leak examplePlatform
           [ SzMount exampleSurface; SzChange (mkTarget "amount" "1"); SzResize;
             SzChange (mkTarget "amount" "12"); SzUnmount ]).
  reflexivity.
Defined.

Lemma sizing_run_app (pf : Platform) (evs1 evs2 : list sizing_event) (s : Sizing) :
  sizing_run pf (evs1 ++ evs2) s = sizing_run pf evs2 (sizing_run pf evs1 s).
Proof. unfold sizing_run. apply foldl_app. Qed.

Lemma sizing_idle_unmounted (pf : Platform) (evs : list sizing_event) (s : Sizing) :
  sz_cleanup s = None -> sz_timers s = [] -> sz_listeners s = [] ->
  Forall is_timer_or_resize evs ->
  sizing_run pf evs s = s.
Proof.
  intros Hc Ht Hl Hevs. induction Hevs as [ | ev evs Hev _ IH ]; [ reflexivity | ].
  cbn [sizing_run foldl].
  assert (Hstep : sizing_step pf ev s = s).
  { destruct ev; try contradiction; cbn [sizing_step].
    - now rewrite Ht.
    - rewrite Hl. cbn [foldl]. apply with_page_id. }
  rewrite Hstep. exact IH.
Qed.

(** X8: teardown cancels the measurement. Once [App] is unmounted, no timer
    that becomes due and no resize of the window changes anything: the
    pending timer was cleared and the listener removed. *)
Theorem unmount_cancels_measurement (pf : Platform) (evs later : list sizing_event) :
  Forall is_timer_or_resize later ->
  sizing_run pf (evs ++ SzUnmount :: later) initialSizing =
    sizing_run pf (evs ++ [SzUnmount]) initialSizing.
Proof.
  intros Hlater.
  change (SzUnmount :: later) with ([SzUnmount] ++ later).
  rewrite app_assoc, (sizing_run_app pf (evs ++ [SzUnmount]) later).
  pose proof (sizing_invariant_run pf (evs ++ [SzUnmount]) initialSizing
                sizing_invariant_initial) as Hinv.
  assert (Hc : sz_cleanup (sizing_run pf (evs ++ [SzUnmount]) initialSizing) = None).
  { rewrite sizing_run_app. cbn [sizing_run foldl sizing_step].
    destruct (sz_cleanup (sizing_run pf evs initialSizing)) eqn:E; [ | exact E ].
    unfold effect_cleanup, with_page. cbn [sz_cleanup]. rewrite E. reflexivity. }
  unfold sizing_invariant in Hinv. rewrite Hc in Hinv. destruct Hinv as (Ht & Hl & _).
  now apply sizing_idle_unmounted.
Qed.

Lemma unmount_cancels_measurement_witness :
  sizing_run examplePlatform
    [ SzMount exampleSurface; SzUnmount; SzTimeout 0; SzResize ] initialSizing =
  sizing_run examplePlatform [ SzMount exampleSurface; SzUnmount ] initialSizing.
Proof.
  apply (unmount_cancels_measurement examplePlatform [ SzMount exampleSurface ]
           [ SzTimeout 0; SzResize ]).
  repeat constructor.
Defined.

(** X9: an edit restarts the timer. After a change on the mounted page the
    only pending timer and the only listener are those of the run the edit
    caused, and a timer of any earlier run that becomes due does nothing. *)
Theorem edit_restarts_timer (pf : Platform) (evs : list sizing_event) (e : ChangeTarget)
    (k : nat) :
  sz_cleanup (sizing_run pf evs initialSizing) ≠ None ->
  k ≠ sz_runs (sizing_run pf evs initialSizing) ->
  let s' := sizing_step pf (SzChange e) (sizing_run pf evs initialSizing) in
  sz_timers s' = [sz_runs (sizing_run pf evs initialSizing)] /\
  sz_listeners s' = [sz_runs (sizing_run pf evs initialSizing)] /\
  sizing_step pf (SzTimeout k) s' = s'.
Proof.
  intros Hmounted Hk.
  pose proof (sizing_invariant_run pf evs initialSizing sizing_invariant_initial) as Hinv.
  destruct (sizing_run pf evs initialSizing) as [p timers listeners cleanup runs].
  unfold sizing_invariant in Hinv.
  cbn [sz_cleanup sz_timers sz_listeners sz_page sz_runs] in *.
  destruct cleanup as [n | ]; [ | contradiction ].
  destruct Hinv as (-> & Htimers & _).
  cbn [sizing_step sz_cleanup]. unfold effect_run, effect_cleanup, with_page.
  cbn [sz_cleanup sz_timers sz_listeners sz_page sz_runs].
  rewrite filter_single_out.
  assert (Ht : filter (fun t : nat => t ≠ n) timers = [])
    by (destruct Htimers as [-> | ->]; [ apply filter_single_out | apply filter_nil ]).
  rewrite Ht. cbn [app]. repeat split.
  cbn [sizing_step sz_timers is_pending existsb].
  destruct (Nat.eqb_spec k runs); [ contradiction | reflexivity ].
Qed.

Lemma edit_restarts_timer_witness :
  sizing_step examplePlatform (SzTimeout 0)
    (sizing_step examplePlatform (SzChange (mkTarget "amount" "1"))
       (sizing_run examplePlatform [ SzMount exampleSurface ] initialSizing)) =
  sizing_step examplePlatform (SzChange (mkTarget "amount" "1"))
    (sizing_run examplePlatform [ SzMount exampleSurface ] initialSizing).
Proof.
  apply (edit_restarts_timer examplePlatform [ SzMount exampleSurface ]
           (mkTarget "amount" "1") 0).
  - discriminate.
  - cbn. lia.
Defined.

(** ** One export, end to end *)

(** Drawing a source canvas that has pixels never throws, whatever the
    target height came out as. *)
Lemma drawImage_positive (w h : Z) :
  0 < w -> 0 < h ->
  drawImage (mkCanvas w h) (JS.of_Z targetWidth) (targetHeight (mkCanvas w h)) = Return tt.
Proof.
  intros Hw Hh. unfold drawImage. cbn [canvas_width canvas_height].
  destruct (Z.eqb_spec w 0); [ lia | ]. destruct (Z.eqb_spec h 0); [ lia | ].
  destruct (negb _); reflexivity.
Qed.

Lemma targetCanvas_width (sc : Canvas) : canvas_width (targetCanvas sc) = 840.
Proof. reflexivity. Qed.

(** X10: a successful export. For a source canvas with pixels, when a 2D
    context is handed out for the target canvas and that canvas can be
    serialised to [url], the call clicks exactly one anchor: its name is
    [hbl-confirmation-840x] followed by [Math.round(targetHeight)] and
    [.png], its href is [url], and its image is the target canvas, which is
    840 wide. It shows no notice, logs nothing, and ends with the flag down
    and the body as before. *)
Theorem successful_export (pf : Platform) (p : Page) (sourceNode : node) (w h : Z)
    (url : string) :
  fresh_ids p -> previewRef p = Some sourceNode ->
  0 < w -> 0 < h ->
  getContext2d pf (targetCanvas (mkCanvas w h)) = true ->
  toDataURL pf (targetCanvas (mkCanvas w h)) = Some url ->
  handleDownload pf (Resolved (mkCanvas w h)) p =
    mkPage (receiptData p) false (previewHeight p) (previewRef p) (body p)
      (S (next_id p))
      (raster_calls p ++ [(captureClone sourceNode, html2canvasOptions)])
      (console_errors p) (alerts p)
      (downloads p ++
         [ {| download_name :=
                "hbl-confirmation-840x"
                  +:+ JS.toString (JS.Math_round (targetHeight (mkCanvas w h))) +:+ ".png";
              download_href := url;
              download_image := targetCanvas (mkCanvas w h) |} ])
      (uncaught p) /\
  canvas_width (targetCanvas (mkCanvas w h)) = 840.
Proof.
  intros Hfresh Href Hw Hh Hctx Hurl. split; [ | apply targetCanvas_width ].
  rewrite (handleDownload_mounted pf _ p sourceNode Hfresh Href).
  unfold tryBlock. cbn [await obind].
  rewrite Hctx. cbn [obind].
  rewrite drawImage_positive by assumption. cbn [obind].
  rewrite Hurl. cbn [obind]. reflexivity.
Qed.

Lemma successful_export_witness :
  downloads (handleDownload examplePlatform (Resolved (mkCanvas 1200 1130)) examplePage) =
    [ {| download_name :=
           "hbl-confirmation-840x"
             +:+ JS.toString (JS.Math_round (targetHeight (mkCanvas 1200 1130))) +:+ ".png";
         download_href := "data:image/png;base64,iVBORw0KGgo=";
         download_image := targetCanvas (mkCanvas 1200 1130) |} ].
Proof.
  rewrite (proj1 (successful_export examplePlatform examplePage exampleSurface 1200 1130
                    "data:image/png;base64,iVBORw0KGgo="
                    examplePage_fresh eq_refl eq_refl eq_refl eq_refl eq_refl)).
  reflexivity.
Defined.

(** X11: every export that starts ends in exactly one of two ways: one
    anchor is clicked and no notice is shown, or the failure notice is shown
    and logged once and no anchor is clicked. Either way the rasteriser was
    called once, the flag is down, and the form data, the measured height
    and the ref are untouched. *)
Theorem export_downloads_or_notifies (pf : Platform) (r : raster_result) (p : Page)
    (sourceNode : node) :
  fresh_ids p -> previewRef p = Some sourceNode ->
  ((exists link, downloads (handleDownload pf r p) = downloads p ++ [link] /\
                 alerts (handleDownload pf r p) = alerts p /\
                 console_errors (handleDownload pf r p) = console_errors p) \/
   (exists err, downloads (handleDownload pf r p) = downloads p /\
                alerts (handleDownload pf r p) = alerts p ++ [failure_notice] /\
                console_errors (handleDownload pf r p) =
                  console_errors p ++ ["Failed to generate image " +:+ err])) /\
  length (raster_calls (handleDownload pf r p)) = S (length (raster_calls p)) /\
  isDownloading (handleDownload pf r p) = false /\
  receiptData (handleDownload pf r p) = receiptData p /\
  previewHeight (handleDownload pf r p) = previewHeight p /\
  previewRef (handleDownload pf r p) = previewRef p.
Proof.
  intros Hfresh Href.
  rewrite (handleDownload_mounted pf r p sourceNode Hfresh Href).
  destruct (tryBlock pf r) as [link | err]; cbn; rewrite length_app; cbn.
  - split; [ left; exists link; repeat split | repeat split; lia ].
  - split; [ right; exists err; repeat split | repeat split; lia ].
Qed.

Lemma export_downloads_or_notifies_witness :
  isDownloading (handleDownload contextlessPlatform (Resolved exampleCapture) examplePage)
    = false /\
  receiptData (handleDownload contextlessPlatform (Resolved exampleCapture) examplePage)
    = initialReceiptData.
Proof.
  destruct (export_downloads_or_notifies contextlessPlatform (Resolved exampleCapture)
              examplePage exampleSurface) as (_ & _ & Hflag & Hdata & _).
  - apply examplePage_fresh.
  - reflexivity.
  - split; [ exact Hflag | exact Hdata ].
Defined.

(** X12: a failure to serialise the canvas is handled like the other
    failures: when [toDataURL] throws, the notice is shown, the error is
    logged, no anchor is clicked, and the clone and the flag are reset. *)
Theorem encoding_failure_is_reported (pf : Platform) (p : Page) (sourceNode : node)
    (w h : Z) :
  fresh_ids p -> previewRef p = Some sourceNode ->
  0 < w -> 0 < h ->
  getContext2d pf (targetCanvas (mkCanvas w h)) = true ->
  toDataURL pf (targetCanvas (mkCanvas w h)) = None ->
  alerts (handleDownload pf (Resolved (mkCanvas w h)) p) = alerts p ++ [failure_notice] /\
  downloads (handleDownload pf (Resolved (mkCanvas w h)) p) = downloads p /\
  body (handleDownload pf (Resolved (mkCanvas w h)) p) = body p /\
  isDownloading (handleDownload pf (Resolved (mkCanvas w h)) p) = false.
Proof.
  intros Hfresh Href Hw Hh Hctx Hurl.
  rewrite (handleDownload_mounted pf _ p sourceNode Hfresh Href).
  unfold tryBlock. cbn [await obind].
  rewrite Hctx. cbn [obind].
  rewrite drawImage_positive by assumption. cbn [obind].
  rewrite Hurl. cbn [obind]. repeat split.
Qed.

Lemma encoding_failure_is_reported_witness :
  alerts (handleDownload (mkPlatform (fun _ => 814) (fun _ => true) (fun _ => None))
            (Resolved (mkCanvas 1200 1600)) examplePage) = [failure_notice].
Proof.
  apply (encoding_failure_is_reported
           (mkPlatform (fun _ => 814) (fun _ => true) (fun _ => None))
           examplePage exampleSurface 1200 1600
           examplePage_fresh eq_refl eq_refl eq_refl eq_refl eq_refl).
Defined.

(** X13: a capture without rows is a failure, not an empty file. For a
    source canvas of positive width and height 0 the target height is 0 (the
    aspect ratio is infinite), drawing the source throws, and the call ends
    with the notice and without a download. *)
Theorem empty_capture_is_reported (pf : Platform) (p : Page) (sourceNode : node) (w : Z) :
  fresh_ids p -> previewRef p = Some sourceNode -> 0 < w ->
  getContext2d pf (mkCanvas 840 0) = true ->
  targetCanvas (mkCanvas w 0) = mkCanvas 840 0 /\
  alerts (handleDownload pf (Resolved (mkCanvas w 0)) p) = alerts p ++ [failure_notice] /\
  downloads (handleDownload pf (Resolved (mkCanvas w 0)) p) = downloads p /\
  body (handleDownload pf (Resolved (mkCanvas w 0)) p) = body p.
Proof.
  intros Hfresh Href Hw Hctx.
  assert (Hratio : sourceAspectRatio (mkCanvas w 0) = JS.PosInf).
  { unfold sourceAspectRatio, JS.div, JS.of_Z. cbn [canvas_width canvas_height].
    rewrite !is_zero_inject_Z. cbn [Z.eqb].
    destruct (Z.eqb_spec w 0); [ lia | ].
    unfold JS.is_neg. cbn [inject_Z Qnum].
    destruct (Z.ltb_spec w 0); [ lia | reflexivity ]. }
  assert (Hheight : targetHeight (mkCanvas w 0) = JS.Fin 0%Q)
    by (unfold targetHeight; rewrite Hratio; reflexivity).
  assert (Hcanvas : targetCanvas (mkCanvas w 0) = mkCanvas 840 0)
    by (unfold targetCanvas; rewrite Hheight; reflexivity).
  split; [ exact Hcanvas | ].
  rewrite (handleDownload_mounted pf _ p sourceNode Hfresh Href).
  unfold tryBlock. cbn [await obind]. rewrite Hcanvas, Hctx. cbn [obind].
  rewrite Hheight. unfold drawImage.
  cbn [JS.of_Z is_finite andb negb canvas_width canvas_height Z.eqb orb].
  rewrite orb_true_r. cbn. repeat split.
Qed.

Lemma empty_capture_is_reported_witness :
  downloads (handleDownload examplePlatform (Resolved (mkCanvas 1200 0)) examplePage) = [].
Proof.
  apply (empty_capture_is_reported examplePlatform examplePage exampleSurface 1200);
    [ apply examplePage_fresh | reflexivity | lia | reflexivity ].
Defined.

(** ** Exports on the running page *)

Lemma run_app (pf : Platform) (evs1 evs2 : list event) (ui : UI) :
  run pf (evs1 ++ evs2) ui = run pf evs2 (run pf evs1 ui).
Proof. unfold run. apply foldl_app. Qed.

(** While the flag is up, an event other than a due delay or a settled
    capture leaves the suspended calls, the flag and the record of rasteriser
    calls as they are. *)
Lemma quiet_step (pf : Platform) (ev : event) (ui : UI) :
  isDownloading (page ui) = true -> leaves_calls_suspended ev ->
  pending (step pf ev ui) = pending ui /\
  isDownloading (page (step pf ev ui)) = true /\
  raster_calls (page (step pf ev ui)) = raster_calls (page ui).
Proof.
  intros Hbusy Hev. destruct ui as [p tasks]. cbn [page pending] in *.
  destruct ev; try contradiction; unfold step; cbn [page pending].
  - rewrite Hbusy. cbn. auto.
  - cbn. auto.
  - unfold calculateHeight. destruct (previewRef p); cbn; auto.
  - cbn. auto.
Qed.

Lemma quiet_run (pf : Platform) (evs : list event) (ui : UI) :
  isDownloading (page ui) = true -> Forall leaves_calls_suspended evs ->
  pending (run pf evs ui) = pending ui /\
  isDownloading (page (run pf evs ui)) = true /\
  raster_calls (page (run pf evs ui)) = raster_calls (page ui).
Proof.
  intros Hbusy Hevs. revert ui Hbusy.
  induction Hevs as [ | ev evs Hev _ IH ]; intros ui Hbusy; [ auto | ].
  cbn [run foldl].
  destruct (quiet_step pf ev ui Hbusy Hev) as (Hp & Hb & Hr).
  destruct (IH _ Hb) as (Hp' & Hb' & Hr').
  unfold run in *. rewrite Hp', Hr', Hp, Hr. auto.
Qed.

(** X14: the image shows the preview as it was at the click. When the button
    is clicked on an idle page whose preview is [sourceNode], then whatever
    edits, measurements, re-renders and further clicks happen during the
    delay, the rasteriser is called on the clone of [sourceNode], once. *)
Theorem capture_is_taken_at_click (pf : Platform) (body0 : list (nat * node)) (next0 : nat)
    (before during : list event) (sourceNode : node) :
  Forall (fun c => (fst c < next0)%nat) body0 ->
  isDownloading (page (run pf before (initialUI body0 next0))) = false ->
  previewRef (page (run pf before (initialUI body0 next0))) = Some sourceNode ->
  Forall leaves_calls_suspended during ->
  let ui0 := run pf before (initialUI body0 next0) in
  let ui := run pf (before ++ Click :: during ++ [DelayElapsed (next_id (page ui0))])
              (initialUI body0 next0) in
  raster_calls (page ui) =
    raster_calls (page ui0) ++ [(captureClone sourceNode, html2canvasOptions)] /\
  pending ui = [Rasterizing (next_id (page ui0)) (captureClone sourceNode)].
Proof.
  intros Hfresh Hidle Href Hduring ui0 ui. subst ui.
  pose proof (export_invariant_run pf body0 next0 before _ Hfresh
                (export_invariant_initial body0 next0)) as [_ Hinv].
  fold ui0 in Hinv, Hidle, Href.
  assert (Hpending : pending ui0 = [])
    by (destruct Hinv as [(_ & H & _) | (Hbusy & _)]; [ exact H | congruence ]).
  change (Click :: during ++ [DelayElapsed (next_id (page ui0))])
    with ([Click] ++ during ++ [DelayElapsed (next_id (page ui0))]).
  rewrite !run_app. fold ui0.
  set (ui1 := run pf [Click] ui0).
  assert (H1 : pending ui1 = [Settling (next_id (page ui0)) (captureClone sourceNode)] /\
               isDownloading (page ui1) = true /\
               raster_calls (page ui1) = raster_calls (page ui0)).
  { subst ui1. cbn [run foldl]. unfold step. rewrite Hidle.
    rewrite (handleDownload_begin_mounted _ sourceNode Href), Hpending. cbn. auto. }
  destruct H1 as (Hp1 & Hb1 & Hr1).
  destruct (quiet_run pf during ui1 Hb1 Hduring) as (Hp2 & _ & Hr2).
  set (ui2 := run pf during ui1) in *.
  cbn [run foldl]. unfold step. rewrite Hp2, Hp1.
  cbn [extract is_settling]. rewrite Nat.eqb_refl.
  cbn [handleDownload_capture task_id task_clone page pending log_raster_call
       raster_calls app].
  rewrite Hr2, Hr1. auto.
Qed.

Lemma capture_is_taken_at_click_witness :
  pending (run examplePlatform
             [ Commit (Some exampleSurface); Click;
               Change (mkTarget "amount" "1"); Commit (Some (Text "edited")); Click;
               DelayElapsed 1 ]
             (initialUI [ (0%nat, Element "div" {[ "id" := "root" ]} ∅ []) ] 1))
    = [ Rasterizing 1 (captureClone exampleSurface) ].
Proof.
  apply (capture_is_taken_at_click examplePlatform
           [ (0%nat, Element "div" {[ "id" := "root" ]} ∅ []) ] 1
           [ Commit (Some exampleSurface) ]
           [ Change (mkTarget "amount" "1"); Commit (Some (Text "edited")); Click ]
           exampleSurface).
  - repeat constructor.
  - reflexivity.
  - reflexivity.
  - repeat constructor.
Defined.

Lemma ledger_step (pf : Platform) (body0 : list (nat * node)) (next0 : nat)
    (ev : event) (ui : UI) :
  Forall (fun c => (fst c < next0)%nat) body0 ->
  export_invariant body0 next0 ui -> ledger_balanced ui ->
  ledger_balanced (step pf ev ui).
Proof.
  intros Hfresh [_ Hstate] (Hun & Hopts & Hcount).
  destruct ui as [p tasks]. unfold ledger_balanced in *. cbn [page pending] in *.
  destruct ev as [ | e | | ref | id | id r ]; unfold step; cbn [page pending].
  - (* Click *)
    destruct Hstate as [(Hidle & -> & _) | (Hbusy & _)].
    + rewrite Hidle. destruct (previewRef p) as [sourceNode | ] eqn:Href.
      * rewrite (handleDownload_begin_mounted p sourceNode Href).
        cbn [page pending app uncaught raster_calls downloads alerts].
        rewrite filter_cons_False by discriminate. auto.
      * unfold handleDownload_begin. rewrite Href. cbn [page pending]. auto.
    + rewrite Hbusy. cbn [page pending]. auto.
  - auto.
  - unfold calculateHeight. destruct (previewRef p); auto.
  - auto.
  - (* DelayElapsed *)
    destruct Hstate as [(_ & -> & _) | (_ & t & -> & _)]; [ cbn; auto | ].
    rewrite extract_single. destruct t as [i c | i c]; cbn [is_settling]; [ | cbn; auto ].
    destruct (Nat.eqb i id); [ | cbn [page pending]; auto ].
    cbn [handleDownload_capture task_id task_clone page pending app log_raster_call
         uncaught raster_calls downloads alerts].
    rewrite filter_cons_False in Hcount by discriminate.
    rewrite filter_cons_True by reflexivity. rewrite filter_nil in *.
    rewrite length_app. cbn [length] in *.
    repeat split; [ assumption | | lia ].
    apply Forall_app. split; [ assumption | repeat constructor ].
  - (* CaptureSettled *)
    destruct Hstate as [(_ & -> & _) | (_ & t & -> & Hid & Hbody)]; [ cbn; auto | ].
    rewrite extract_single. destruct t as [i c | i c]; cbn [is_rasterizing]; [ cbn; auto | ].
    destruct (Nat.eqb i id); [ | cbn [page pending]; auto ].
    cbn [task_id task_clone page pending] in *.
    rewrite (handleDownload_finish_attached pf r p body0 next0 i c Hfresh (proj1 Hid) Hbody).
    rewrite filter_cons_True in Hcount by reflexivity. rewrite filter_nil in *.
    cbn [length] in Hcount.
    destruct (tryBlock pf r); cbn [uncaught raster_calls downloads alerts];
      rewrite length_app; cbn [length]; repeat split; try assumption; lia.
Qed.

(** X15: on the running page no exception ever leaves [handleDownload], the
    rasteriser is only ever called with [scale: 2], the background
    [#1E1E1E] and [useCORS: true], and every call of it is answered by
    exactly one download or one failure notice once its capture settles:
    calls made = downloads + notices + captures still awaited. *)
Theorem every_capture_is_answered (pf : Platform) (body0 : list (nat * node)) (next0 : nat)
    (evs : list event) :
  Forall (fun c => (fst c < next0)%nat) body0 ->
  ledger_balanced (run pf evs (initialUI body0 next0)).
Proof.
  intros Hfresh.
  assert (H : forall evs ui, export_invariant body0 next0 ui -> ledger_balanced ui ->
                ledger_balanced (run pf evs ui)).
  { clear evs. induction evs as [ | ev evs IH ]; intros ui Hinv Hled; [ exact Hled | ].
    cbn [run foldl]. apply IH.
    - now apply export_invariant_step.
    - now apply (ledger_step pf body0 next0). }
  apply H.
  - apply export_invariant_initial.
  - unfold ledger_balanced. cbn. repeat split. constructor.
Qed.

Lemma every_capture_is_answered_witness :
  ledger_balanced
    (run examplePlatform
       [ Commit (Some exampleSurface); Click; DelayElapsed 1;
         CaptureSettled 1 (Rejected "boom"); Click; DelayElapsed 2 ]
       (initialUI [ (0%nat, Element "div" {[ "id" := "root" ]} ∅ []) ] 1)).
Proof.
  apply (every_capture_is_answered examplePlatform
           [ (0%nat, Element "div" {[ "id" := "root" ]} ∅ []) ] 1).
  repeat constructor.
Defined.

(** X16: the output does not depend on the resolution of the capture. A
    source canvas [k] times as wide and as high gives the same target
    height, the same target canvas and the same file name. *)
Theorem output_independent_of_oversampling (k w h : Z) :
  0 < k -> 0 < w -> 0 < h -> 840 * h / w <= 2147483647 ->
  targetHeight (mkCanvas (k * w) (k * h)) = targetHeight (mkCanvas w h) /\
  targetCanvas (mkCanvas (k * w) (k * h)) = targetCanvas (mkCanvas w h) /\
  downloadName (mkCanvas (k * w) (k * h)) = downloadName (mkCanvas w h).
Proof.
  intros Hk Hw Hh Hmax.
  assert (Hth : targetHeight (mkCanvas (k * w) (k * h)) = targetHeight (mkCanvas w h))
    by (unfold targetHeight; now rewrite aspect_ratio_scaled).
  split; [ exact Hth | split ].
  - unfold targetCanvas. now rewrite Hth.
  - unfold downloadName. now rewrite Hth.
Qed.

Lemma output_independent_of_oversampling_witness :
  targetCanvas (mkCanvas 1200 1628) = targetCanvas (mkCanvas 600 814) /\
  downloadName (mkCanvas 1200 1628) = downloadName (mkCanvas 600 814).
Proof.
  destruct (output_independent_of_oversampling 2 600 814) as (_ & Hc & Hn);
    [ lia | lia | lia | vm_compute; discriminate | ].
  split; [ exact Hc | exact Hn ].
Defined.
